(** * The artifact cache and analysis engine of the Datadog MCP server

    A shallow embedding of the cache and analysis part of [server.py]:
    [_store_data], [cleanup_cache], [analyze_data], [_generate_summary],
    [_calculate_stats] and [_analyze_trends]; of the tools that fetch and
    store, [get_metrics], [get_events], [get_monitors] and
    [get_infrastructure]; of the monitor [create_monitor] and
    [update_monitor] send; and of [_load_config].

    Conventions of the embedding.
    - Python values decoded from JSON are the type [pyval]; numbers are
      Python integers ([Z]).  Float literals are not part of the model;
      the results of true division ([/]) and of [round] are exact
      rationals ([Q]).
    - A Python [str] is a Rocq [string]; each character is a code point
      below 256.
    - A Python exception is a value [Raise e] of the type [result].
    - The clock ([datetime.now]) and the random source ([uuid.uuid4]) are
      arguments of the functions that read them, and so are the
      environment of the process and the answers of the Datadog API. *)

From Stdlib Require Import ZArith QArith Qround String Ascii List Lia Lqa.
From Stdlib Require Import DecimalString DecimalZ DecimalPos DecimalN DecimalFacts.
From stdpp Require Import base option list strings gmap.

Set Warnings "-register-all".
Close Scope Q_scope.
Open Scope string_scope.
Open Scope list_scope.
Open Scope Z_scope.

(** ** Python values and exceptions *)

Inductive pyval : Type :=
| VNone
| VBool (b : bool)
| VInt (z : Z)
| VStr (s : string)
| VList (l : list pyval)
| VDict (d : list (string * pyval)).

Inductive exn : Type :=
| TypeError
| AttributeError
| KeyError
| IndexError
| ValueError
| JSONDecodeError
| RecursionError
| OSError
| OutsideModel.

(** [OSError] stands for its subclasses too ([PermissionError],
    [FileNotFoundError]).  [OutsideModel] is not an exception of Python: the
    JSON decoder of this model answers it on a text that leaves the
    fragment modelled here (a float literal, an escaped code point above
    255).

    [str(e)]: the message text of Python's exceptions is not modelled, an
    exception is shown by the name of its class. *)
Definition str_exn (e : exn) : string :=
  match e with
  | TypeError => "TypeError"
  | AttributeError => "AttributeError"
  | KeyError => "KeyError"
  | IndexError => "IndexError"
  | ValueError => "ValueError"
  | JSONDecodeError => "JSONDecodeError"
  | RecursionError => "RecursionError"
  | OSError => "OSError"
  | OutsideModel => "OutsideModel"
  end.

Inductive result (A : Type) : Type :=
| Ok (a : A)
| Raise (e : exn).
Arguments Ok {A} a.
Arguments Raise {A} e.

Definition rbind {A B} (m : result A) (k : A -> result B) : result B :=
  match m with
  | Ok a => k a
  | Raise e => Raise e
  end.

Notation "'let*' x ':=' m 'in' k" := (rbind m (fun x => k))
  (at level 10, x pattern, m at level 100, k at level 200).

(** ** Dictionaries in insertion order *)

Fixpoint dict_get {A} (d : list (string * A)) (k : string) : option A :=
  match d with
  | [] => None
  | (k', v) :: d' => if String.eqb k' k then Some v else dict_get d' k
  end.

(** [d[k] = v]: an existing key keeps its position. *)
Fixpoint dict_set {A} (d : list (string * A)) (k : string) (v : A)
  : list (string * A) :=
  match d with
  | [] => [(k, v)]
  | (k', v') :: d' =>
      if String.eqb k' k then (k, v) :: d' else (k', v') :: dict_set d' k v
  end.

Definition dict_has {A} (d : list (string * A)) (k : string) : bool :=
  match dict_get d k with Some _ => true | None => false end.

(** ** The operations of Python the analyzers use, on JSON values *)

Fixpoint is_substring (k s : string) : bool :=
  String.prefix k s
  || match s with
     | EmptyString => false
     | String _ s' => is_substring k s'
     end.

(** [v == "k"] for a string literal. *)
Definition py_eq_str (v : pyval) (k : string) : bool :=
  match v with
  | VStr s => String.eqb s k
  | _ => false
  end.

(** ["k" in c]. *)
Definition py_in (k : string) (c : pyval) : result bool :=
  match c with
  | VDict d => Ok (dict_has d k)
  | VList l => Ok (existsb (fun v => py_eq_str v k) l)
  | VStr s => Ok (is_substring k s)
  | VNone | VBool _ | VInt _ => Raise TypeError
  end.

(** [c["k"]]. *)
Definition py_getitem_key (c : pyval) (k : string) : result pyval :=
  match c with
  | VDict d =>
      match dict_get d k with
      | Some v => Ok v
      | None => Raise KeyError
      end
  | _ => Raise TypeError
  end.

Fixpoint chars (s : string) : list pyval :=
  match s with
  | EmptyString => []
  | String c s' => VStr (String c EmptyString) :: chars s'
  end.

(** [l[i]] with Python's negative indices. *)
Definition list_index {A} (l : list A) (i : Z) : result A :=
  let n := Z.of_nat (length l) in
  let j := if i <? 0 then i + n else i in
  if (j <? 0) || (n <=? j) then Raise IndexError
  else match nth_error l (Z.to_nat j) with
       | Some x => Ok x
       | None => Raise IndexError
       end.

(** [c[i]] for an integer literal; the keys of a decoded JSON object are
    strings, so no key equals an integer. *)
Definition py_getitem_idx (c : pyval) (i : Z) : result pyval :=
  match c with
  | VList l => list_index l i
  | VStr s => list_index (chars s) i
  | VDict _ => Raise KeyError
  | VNone | VBool _ | VInt _ => Raise TypeError
  end.

(** [len(c)]. *)
Definition py_len (c : pyval) : result Z :=
  match c with
  | VList l => Ok (Z.of_nat (length l))
  | VStr s => Ok (Z.of_nat (String.length s))
  | VDict d => Ok (Z.of_nat (length d))
  | VNone | VBool _ | VInt _ => Raise TypeError
  end.

(** [for x in c]: the elements of a list, the characters of a string, the
    keys of a dictionary. *)
Definition py_iter (c : pyval) : result (list pyval) :=
  match c with
  | VList l => Ok l
  | VStr s => Ok (chars s)
  | VDict d => Ok (map (fun kv => VStr (fst kv)) d)
  | VNone | VBool _ | VInt _ => Raise TypeError
  end.

(** [c.get("k", default)]: only dictionaries have the method. *)
Definition py_get (c : pyval) (k : string) (default : pyval) : result pyval :=
  match c with
  | VDict d =>
      match dict_get d k with
      | Some v => Ok v
      | None => Ok default
      end
  | _ => Raise AttributeError
  end.

(** Truth value of [c] in a condition. *)
Definition py_truthy (c : pyval) : bool :=
  match c with
  | VNone => false
  | VBool b => b
  | VInt z => negb (z =? 0)
  | VStr s => negb (String.eqb s "")
  | VList l => match l with [] => false | _ => true end
  | VDict d => match d with [] => false | _ => true end
  end.

Definition is_none (v : pyval) : bool :=
  match v with VNone => true | _ => false end.

Definition is_list (v : pyval) : bool :=
  match v with VList _ => true | _ => false end.

(** The number a value stands for in arithmetic; [bool] is a subclass of
    [int]. *)
Definition num_of (v : pyval) : option Z :=
  match v with
  | VInt z => Some z
  | VBool b => Some (Z.b2z b)
  | _ => None
  end.

Definition py_num (v : pyval) : result Z :=
  match num_of v with
  | Some z => Ok z
  | None => Raise TypeError
  end.

(** [a < b].  Only the order of numbers is modelled: on the value lists
    the analyzers build, an operand that is not a number makes the
    arithmetic that follows the comparison raise [TypeError] as well. *)
Definition py_lt (a b : pyval) : result bool :=
  let* x := py_num a in let* y := py_num b in Ok (x <? y).

(** [min(vs)] and [max(vs)] keep the first of several equal extremes. *)
Fixpoint min_loop (best : pyval) (vs : list pyval) : result pyval :=
  match vs with
  | [] => Ok best
  | v :: vs' =>
      let* b := py_lt v best in
      min_loop (if b then v else best) vs'
  end.

Fixpoint max_loop (best : pyval) (vs : list pyval) : result pyval :=
  match vs with
  | [] => Ok best
  | v :: vs' =>
      let* b := py_lt best v in
      max_loop (if b then v else best) vs'
  end.

Definition py_min (vs : list pyval) : result pyval :=
  match vs with
  | [] => Raise ValueError
  | v :: vs' => min_loop v vs'
  end.

Definition py_max (vs : list pyval) : result pyval :=
  match vs with
  | [] => Raise ValueError
  | v :: vs' => max_loop v vs'
  end.

(** [sum(vs)], which starts from the integer 0. *)
Fixpoint sum_loop (acc : Z) (vs : list pyval) : result Z :=
  match vs with
  | [] => Ok acc
  | v :: vs' => let* x := py_num v in sum_loop (acc + x) vs'
  end.

Definition py_sum (vs : list pyval) : result Z := sum_loop 0 vs.

(** [str(n)] of an integer. *)
Definition py_str_int (z : Z) : string :=
  NilZero.string_of_int (Z.to_int z).

(** ** Results of the analyzers

    A result dictionary holds JSON values, floats (the mean and the
    percentage) and nested dictionaries. *)

Inductive rval : Type :=
| RVal (v : pyval)
| RFloat (q : Q)
| RDict (d : list (string * rval)).

Abbreviation rdict := (list (string * rval)).

(** [x / y] on integers with [y] not zero, as an exact rational. *)
Definition true_div (x y : Z) : Q := Qred (inject_Z x / inject_Z y)%Q.

(** Rounding to the nearest integer, ties to the even one. *)
Definition round_half_even (q : Q) : Z :=
  let f := Qfloor q in
  match Qcompare (q - inject_Z f)%Q (1 # 2)%Q with
  | Lt => f
  | Gt => f + 1
  | Eq => if Z.even f then f else f + 1
  end.

(** [round(q, 2)]. *)
Definition round2 (q : Q) : Q :=
  Qred (inject_Z (round_half_even (q * inject_Z 100)%Q) / inject_Z 100)%Q.

(** ** [_generate_summary] *)

(** [summary["key_insights"].append(msg)]. *)
Definition append_insight (summary : rdict) (msg : string) : rdict :=
  match dict_get summary "key_insights" with
  | Some (RVal (VList l)) =>
      dict_set summary "key_insights" (RVal (VList (l ++ [VStr msg])))
  | _ => summary
  end.

(** [sum(len(s.get("pointlist", [])) for s in series)]. *)
Fixpoint sum_point_counts (acc : Z) (ss : list pyval) : result Z :=
  match ss with
  | [] => Ok acc
  | s :: ss' =>
      let* pl := py_get s "pointlist" (VList []) in
      let* n := py_len pl in
      sum_point_counts (acc + n) ss'
  end.

(** [sum(1 for m in data if m.get("overall_state") == "Alert")]. *)
Fixpoint count_alerting (acc : Z) (ms : list pyval) : result Z :=
  match ms with
  | [] => Ok acc
  | m :: ms' =>
      let* st := py_get m "overall_state" VNone in
      count_alerting (if py_eq_str st "Alert" then acc + 1 else acc) ms'
  end.

Definition summary_init : rdict :=
  [("data_type", RVal (VStr "unknown"));
   ("record_count", RVal (VInt 0));
   ("key_insights", RVal (VList []))].

Definition _generate_summary (data : pyval) : result rdict :=
  let summary := summary_init in
  let* has_series := py_in "series" data in
  if has_series then
    let summary := dict_set summary "data_type" (RVal (VStr "metrics")) in
    let* series := py_getitem_key data "series" in
    let* n := py_len series in
    let summary := dict_set summary "record_count" (RVal (VInt n)) in
    let* ss := py_iter series in
    let* total_points := sum_point_counts 0 ss in
    let summary := dict_set summary "total_data_points" (RVal (VInt total_points)) in
    if 1000 <? total_points
    then Ok (append_insight summary "Large dataset - consider aggregation")
    else Ok summary
  else if is_list data && py_truthy data then
    let* first := py_getitem_idx data 0 in
    let* has_state := py_in "overall_state" first in
    if has_state then
      let summary := dict_set summary "data_type" (RVal (VStr "monitors")) in
      let* n := py_len data in
      let summary := dict_set summary "record_count" (RVal (VInt n)) in
      let* ms := py_iter data in
      let* alerting := count_alerting 0 ms in
      let summary := dict_set summary "alerting_monitors" (RVal (VInt alerting)) in
      if 0 <? alerting
      then Ok (append_insight summary
                 (py_str_int alerting +:+ " monitors currently alerting"))
      else Ok summary
    else Ok summary
  else
    let* has_events := py_in "events" data in
    if has_events then
      let summary := dict_set summary "data_type" (RVal (VStr "events")) in
      let* events := py_getitem_key data "events" in
      let* n := py_len events in
      Ok (dict_set summary "record_count" (RVal (VInt n)))
    else Ok summary.

(** ** [_calculate_stats] *)

(** [[p[1] for p in pointlist if p[1] is not None]]. *)
Fixpoint non_null_values (ps : list pyval) : result (list pyval) :=
  match ps with
  | [] => Ok []
  | p :: ps' =>
      let* v := py_getitem_idx p 1 in
      let* vs := non_null_values ps' in
      Ok (if is_none v then vs else v :: vs)
  end.

(** The loop over [data["series"]] that extends [all_values]. *)
Fixpoint collect_values (all_values : list pyval) (ss : list pyval)
  : result (list pyval) :=
  match ss with
  | [] => Ok all_values
  | series :: ss' =>
      let* has_pl := py_in "pointlist" series in
      if has_pl then
        let* pl := py_getitem_key series "pointlist" in
        let* ps := py_iter pl in
        let* values := non_null_values ps in
        collect_values (all_values ++ values) ss'
      else collect_values all_values ss'
  end.

(** The dictionary literal passed to [stats.update]. *)
Definition stats_fields (all_values : list pyval) : result rdict :=
  let* mn := py_min all_values in
  let* mx := py_max all_values in
  let* total := py_sum all_values in
  Ok [("min_value", RVal mn);
      ("max_value", RVal mx);
      ("avg_value", RFloat (true_div total (Z.of_nat (length all_values))));
      ("total_points", RVal (VInt (Z.of_nat (length all_values))))].

(** [stats.update(fields)]. *)
Definition dict_update {A} (d fields : list (string * A)) : list (string * A) :=
  fold_left (fun s kv => dict_set s (fst kv) (snd kv)) fields d.

Definition _calculate_stats (now_iso : string) (data : pyval) : result rdict :=
  let stats := [("calculated_at", RVal (VStr now_iso))] in
  let* has_series := py_in "series" data in
  if has_series then
    let* series := py_getitem_key data "series" in
    let* ss := py_iter series in
    let* all_values := collect_values [] ss in
    if py_truthy (VList all_values) then
      let* fields := stats_fields all_values in
      Ok (dict_update stats fields)
    else Ok stats
  else Ok stats.

(** ** [_analyze_trends] *)

(** [first_val != 0]: a value that is not a number differs from 0. *)
Definition py_ne_zero (v : pyval) : bool :=
  match num_of v with
  | Some z => negb (z =? 0)
  | None => true
  end.

(** [((last_val - first_val) / first_val) * 100], for [first_val != 0]. *)
Definition change_pct_of (first_val last_val : pyval) : result Q :=
  let* l := py_num last_val in
  let* f := py_num first_val in
  Ok (Qred (inject_Z (l - f) / inject_Z f * inject_Z 100)%Q).

Definition Qltb (a b : Q) : bool := negb (Qle_bool b a).

(** The body of [if len(values) >= 2:]. *)
Definition trend_of_values (trends : rdict) (values : list pyval)
  : result rdict :=
  match values, last values with
  | first_val :: _ :: _, Some last_val =>
      if py_ne_zero first_val then
        let* change_pct := change_pct_of first_val last_val in
        let trends := dict_set trends "change_percentage" (RFloat (round2 change_pct)) in
        if Qltb (inject_Z 10) change_pct
        then Ok (dict_set trends "trend_direction" (RVal (VStr "increasing")))
        else if Qltb change_pct (inject_Z (-10))
        then Ok (dict_set trends "trend_direction" (RVal (VStr "decreasing")))
        else Ok trends
      else Ok trends
  | _, _ => Ok trends
  end.

(** The body of [if "series" in data and data["series"]:]. *)
Definition trend_of_series (trends : rdict) (series : pyval) : result rdict :=
  let* has_pl := py_in "pointlist" series in
  if has_pl then
    let* pl := py_getitem_key series "pointlist" in
    let* n := py_len pl in
    if 1 <? n then
      let* ps := py_iter pl in
      let* values := non_null_values ps in
      trend_of_values trends values
    else Ok trends
  else Ok trends.

Definition _analyze_trends (now_iso : string) (data : pyval) : result rdict :=
  let trends := [("trend_direction", RVal (VStr "stable"));
                 ("analyzed_at", RVal (VStr now_iso))] in
  let* has_series := py_in "series" data in
  if has_series then
    let* all_series := py_getitem_key data "series" in
    if py_truthy all_series then
      let* series := py_getitem_idx all_series 0 in
      trend_of_series trends series
    else Ok trends
  else Ok trends.

(** ** Values handed to [_store_data]

    The payload of a store call is any Python object [json.dumps] accepts
    with [default=str]: the JSON-native values, dictionaries whose keys are
    strings, integers, booleans or [None], tuples, and any other object
    (a [datetime], say), which the encoder replaces by [str(obj)]. *)

Inductive pykey : Type :=
| KStr (s : string)
| KInt (z : Z)
| KBool (b : bool)
| KNone.

Inductive pyobj : Type :=
| ONone
| OBool (b : bool)
| OInt (z : Z)
| OStr (s : string)
| OList (l : list pyobj)
| OTuple (l : list pyobj)
| ODict (d : list (pykey * pyobj))
| OOther (str_of : string).

(** ** The JSON text codec: [json.dumps(_, indent=2, default=str)] and
    [json.loads] of Python's standard library, on the values above. *)

Module Json.

Local Open Scope char_scope.

Abbreviation text := (list ascii).

(** *** Encoder *)

Definition hex_digit (n : N) : ascii :=
  match n with
  | 0%N => "0" | 1%N => "1" | 2%N => "2" | 3%N => "3" | 4%N => "4"
  | 5%N => "5" | 6%N => "6" | 7%N => "7" | 8%N => "8" | 9%N => "9"
  | 10%N => "a" | 11%N => "b" | 12%N => "c" | 13%N => "d" | 14%N => "e"
  | _ => "f"
  end.

(** [ESCAPE_DCT] and the [\uXXXX] fallback of [encode_basestring_ascii]:
    every character outside [' '..'~'], the quote and the backslash are
    escaped. *)
Definition escape_char (c : ascii) : text :=
  let n := N_of_ascii c in
  if (n =? 34)%N then ["\"; "034"]
  else if (n =? 92)%N then ["\"; "\"]
  else if (n =? 8)%N then ["\"; "b"]
  else if (n =? 12)%N then ["\"; "f"]
  else if (n =? 10)%N then ["\"; "n"]
  else if (n =? 13)%N then ["\"; "r"]
  else if (n =? 9)%N then ["\"; "t"]
  else if (32 <=? n)%N && (n <=? 126)%N then [c]
  else ["\"; "u"; "0"; "0"; hex_digit (n / 16); hex_digit (n mod 16)].

Fixpoint escape_body (s : string) : text :=
  match s with
  | EmptyString => []
  | String c s' => escape_char c ++ escape_body s'
  end.

Definition encode_string (s : string) : text :=
  "034" :: escape_body s ++ ["034"].

Definition encode_int (z : Z) : text :=
  list_ascii_of_string (py_str_int z).

(** The text of a dictionary key: strings as they are, the other keys as
    their JSON literal. *)
Definition key_str (k : pykey) : string :=
  match k with
  | KStr s => s
  | KInt z => py_str_int z
  | KBool true => "true"%string
  | KBool false => "false"%string
  | KNone => "null"%string
  end.

(** ['\n' + ' ' * (indent * level)] with [indent = 2]. *)
Definition newline_indent (level : nat) : text :=
  "010" :: repeat " " (2 * level).

(** The items of a non-empty container at nesting [level]: each on a line
    of its own at [level + 1], separated by [","], then the line of the
    closing bracket at [level]. *)
Fixpoint join_items (level : nat) (items : list text) : text :=
  match items with
  | [] => newline_indent level
  | [i] => newline_indent (S level) ++ i ++ newline_indent level
  | i :: items' => newline_indent (S level) ++ i ++ "," :: join_items level items'
  end.

Fixpoint encode (level : nat) (x : pyobj) : text :=
  match x with
  | ONone => list_ascii_of_string "null"
  | OBool true => list_ascii_of_string "true"
  | OBool false => list_ascii_of_string "false"
  | OInt z => encode_int z
  | OStr s => encode_string s
  | OOther s => encode_string s
  | OList l | OTuple l =>
      match l with
      | [] => ["["; "]"]
      | _ => "[" :: join_items level (map (encode (S level)) l) ++ ["]"]
      end
  | ODict d =>
      match d with
      | [] => ["{"; "}"]
      | _ =>
          "{" :: join_items level
                   (map (fun kv => encode_string (key_str (fst kv))
                                   ++ ":" :: " " :: encode (S level) (snd kv)) d)
              ++ ["}"]
      end
  end.

Definition dumps (x : pyobj) : string := string_of_list_ascii (encode 0 x).

(** *** Decoder *)

Definition is_ws (c : ascii) : bool :=
  match c with
  | " " | "009" | "010" | "013" => true
  | _ => false
  end.

Fixpoint skip_ws (s : text) : text :=
  match s with
  | c :: s' => if is_ws c then skip_ws s' else s
  | [] => []
  end.

Definition hex_value (c : ascii) : option N :=
  let n := N_of_ascii c in
  if (48 <=? n)%N && (n <=? 57)%N then Some (n - 48)%N
  else if (97 <=? n)%N && (n <=? 102)%N then Some (n - 87)%N
  else if (65 <=? n)%N && (n <=? 70)%N then Some (n - 55)%N
  else None.

Definition hex4 (a b c d : ascii) : option N :=
  match hex_value a, hex_value b, hex_value c, hex_value d with
  | Some x, Some y, Some z, Some w => Some (((x * 16 + y) * 16 + z) * 16 + w)%N
  | _, _, _, _ => None
  end.

(** The table [BACKSLASH] of the decoder. *)
Definition unescape (e : ascii) : option ascii :=
  match e with
  | "034" => Some "034"
  | "\" => Some "\"
  | "/" => Some "/"
  | "b" => Some "008"
  | "f" => Some "012"
  | "n" => Some "010"
  | "r" => Some "013"
  | "t" => Some "009"
  | _ => None
  end.

(** [scanstring], entered after the opening quote, in strict mode. *)
Fixpoint scanstring (s : text) : result (string * text) :=
  match s with
  | [] => Raise JSONDecodeError
  | c :: r =>
      if Ascii.eqb c "034" then Ok (EmptyString, r)
      else if Ascii.eqb c "\" then
        match r with
        | [] => Raise JSONDecodeError
        | e :: r1 =>
            if Ascii.eqb e "u" then
              match r1 with
              | h1 :: h2 :: h3 :: h4 :: r2 =>
                  match hex4 h1 h2 h3 h4 with
                  | Some n =>
                      if (n <? 256)%N then
                        let* (t, r3) := scanstring r2 in
                        Ok (String (ascii_of_N n) t, r3)
                      else Raise OutsideModel
                  | None => Raise JSONDecodeError
                  end
              | _ => Raise JSONDecodeError
              end
            else
              match unescape e with
              | Some c' =>
                  let* (t, r2) := scanstring r1 in
                  Ok (String c' t, r2)
              | None => Raise JSONDecodeError
              end
        end
      else if (N_of_ascii c <? 32)%N then Raise JSONDecodeError
      else
        let* (t, r') := scanstring r in
        Ok (String c t, r')
  end.

Definition digit_of (c : ascii) : option (Decimal.uint -> Decimal.uint) :=
  match c with
  | "0" => Some Decimal.D0 | "1" => Some Decimal.D1 | "2" => Some Decimal.D2
  | "3" => Some Decimal.D3 | "4" => Some Decimal.D4 | "5" => Some Decimal.D5
  | "6" => Some Decimal.D6 | "7" => Some Decimal.D7 | "8" => Some Decimal.D8
  | "9" => Some Decimal.D9
  | _ => None
  end.

Definition is_digit (c : ascii) : bool :=
  match digit_of c with Some _ => true | None => false end.

(** The longest run of digits at the head of the text. *)
Fixpoint scan_digits (s : text) : Decimal.uint * text :=
  match s with
  | [] => (Decimal.Nil, [])
  | c :: s' =>
      match digit_of c with
      | Some d => let (u, r) := scan_digits s' in (d u, r)
      | None => (Decimal.Nil, s)
      end
  end.

(** The integer group of [NUMBER_RE]: an optional minus sign, then either
    a single 0 or a digit from 1 to 9 followed by any digits. *)
Definition scan_integer (s : text) : option (Decimal.int * text) :=
  let (neg, s1) :=
    match s with
    | "-" :: s' => (true, s')
    | _ => (false, s)
    end in
  let sign := fun u => if neg then Decimal.Neg u else Decimal.Pos u in
  match s1 with
  | [] => None
  | c :: r =>
      if Ascii.eqb c "0" then Some (sign (Decimal.D0 Decimal.Nil), r)
      else if is_digit c then
        let (u, r') := scan_digits s1 in Some (sign u, r')
      else None
  end.

(** The fraction and exponent groups of [NUMBER_RE] (a dot and digits; an
    [e] or [E], an optional sign and digits): does one of them match at the
    head of the text? *)
Definition starts_with_digit (s : text) : bool :=
  match s with
  | c :: _ => is_digit c
  | [] => false
  end.

Definition float_tail (s : text) : bool :=
  match s with
  | "." :: r => starts_with_digit r
  | "e" :: r | "E" :: r =>
      match r with
      | "-" :: r' | "+" :: r' => starts_with_digit r'
      | _ => starts_with_digit r
      end
  | _ => false
  end.

Fixpoint is_prefix (p s : text) : option text :=
  match p, s with
  | [], _ => Some s
  | a :: p', b :: s' => if Ascii.eqb a b then is_prefix p' s' else None
  | _ :: _, [] => None
  end.

(** [dict(pairs)]: a repeated key keeps its first position and takes its
    last value. *)
Definition dict_of_pairs {A} (pairs : list (string * A)) : list (string * A) :=
  fold_left (fun d kv => dict_set d (fst kv) (snd kv)) pairs [].

(** The loop of [JSONArray], entered at the first value. *)
Fixpoint scan_array (scan : text -> result (pyval * text)) (fuel : nat)
    (s : text) : result (list pyval * text) :=
  match fuel with
  | O => Raise RecursionError
  | S fuel' =>
      let* (value, r) := scan s in
      match skip_ws r with
      | "]" :: r' => Ok ([value], r')
      | "," :: r' =>
          let* (values, r'') := scan_array scan fuel' (skip_ws r') in
          Ok (value :: values, r'')
      | _ => Raise JSONDecodeError
      end
  end.

(** The loop of [JSONObject], entered after the opening quote of a key. *)
Fixpoint scan_object (scan : text -> result (pyval * text)) (fuel : nat)
    (s : text) : result (list (string * pyval) * text) :=
  match fuel with
  | O => Raise RecursionError
  | S fuel' =>
      let* (key, r) := scanstring s in
      match skip_ws r with
      | ":" :: r1 =>
          let* (value, r2) := scan (skip_ws r1) in
          match skip_ws r2 with
          | "}" :: r3 => Ok ([(key, value)], r3)
          | "," :: r3 =>
              match skip_ws r3 with
              | "034" :: r4 =>
                  let* (pairs, r5) := scan_object scan fuel' r4 in
                  Ok ((key, value) :: pairs, r5)
              | _ => Raise JSONDecodeError
              end
          | _ => Raise JSONDecodeError
          end
      | _ => Raise JSONDecodeError
      end
  end.

Definition scan_constant (s : text) : option (result (pyval * text)) :=
  match is_prefix (list_ascii_of_string "NaN") s,
        is_prefix (list_ascii_of_string "Infinity") s,
        is_prefix (list_ascii_of_string "-Infinity") s with
  | None, None, None => None
  | _, _, _ => Some (Raise OutsideModel)
  end.

Definition scan_number (s : text) : result (pyval * text) :=
  match scan_integer s with
  | Some (i, r) =>
      if float_tail r then Raise OutsideModel
      else Ok (VInt (Z.of_int i), r)
  | None =>
      match scan_constant s with
      | Some res => res
      | None => Raise JSONDecodeError
      end
  end.

(** [scan_once]: one JSON value at the head of the text.  The recursion of
    the decoder is bounded by [fuel], and running out of it is Python's
    [RecursionError]; [decode] grants one call per character of the text
    and one more. *)
Fixpoint scan_once (fuel : nat) (s : text) : result (pyval * text) :=
  match fuel with
  | O => Raise RecursionError
  | S fuel' =>
      match s with
      | [] => Raise JSONDecodeError
      | c :: r =>
          if Ascii.eqb c "034" then
            let* (str, r') := scanstring r in Ok (VStr str, r')
          else if Ascii.eqb c "{" then
            match skip_ws r with
            | "}" :: r' => Ok (VDict [], r')
            | "034" :: r' =>
                let* (pairs, r'') := scan_object (scan_once fuel') fuel' r' in
                Ok (VDict (dict_of_pairs pairs), r'')
            | _ => Raise JSONDecodeError
            end
          else if Ascii.eqb c "[" then
            match skip_ws r with
            | "]" :: r' => Ok (VList [], r')
            | r' =>
                let* (values, r'') := scan_array (scan_once fuel') fuel' r' in
                Ok (VList values, r'')
            end
          else
            match is_prefix (list_ascii_of_string "null") s,
                  is_prefix (list_ascii_of_string "true") s,
                  is_prefix (list_ascii_of_string "false") s with
            | Some r', _, _ => Ok (VNone, r')
            | _, Some r', _ => Ok (VBool true, r')
            | _, _, Some r' => Ok (VBool false, r')
            | None, None, None => scan_number s
            end
      end
  end.

(** [JSONDecoder.decode]: leading white space, one value, trailing white
    space, and nothing else. *)
Definition decode (s : text) : result pyval :=
  let* (obj, r) := scan_once (S (length s)) (skip_ws s) in
  match skip_ws r with
  | [] => Ok obj
  | _ :: _ => Raise JSONDecodeError
  end.

Definition loads (s : string) : result pyval := decode (list_ascii_of_string s).

(** *** What a stored value reads back as *)

Fixpoint canonical (x : pyobj) : pyval :=
  match x with
  | ONone => VNone
  | OBool b => VBool b
  | OInt z => VInt z
  | OStr s => VStr s
  | OOther s => VStr s
  | OList l | OTuple l => VList (map canonical l)
  | ODict d =>
      VDict (dict_of_pairs
               (map (fun kv => (key_str (fst kv), canonical (snd kv))) d))
  end.

(** A decoded JSON value, seen as a payload. *)
Fixpoint of_pyval (v : pyval) : pyobj :=
  match v with
  | VNone => ONone
  | VBool b => OBool b
  | VInt z => OInt z
  | VStr s => OStr s
  | VList l => OList (map of_pyval l)
  | VDict d => ODict (map (fun kv => (KStr (fst kv), of_pyval (snd kv))) d)
  end.

(** *** Notions used to state the properties of the codec *)

(** The characters a JSON value can start with; none is white space or a
    closing bracket. *)
Definition value_start (c : ascii) : bool :=
  is_digit c
  || match c with
     | "-" | "034" | "[" | "{" | "n" | "t" | "f" => true
     | _ => false
     end.

Definition starts_value (t : text) : Prop :=
  match t with
  | c :: _ => value_start c = true
  | [] => False
  end.

(** The digits of an unsigned decimal number. *)
Definition uint_text (u : Decimal.uint) : text :=
  list_ascii_of_string (NilEmpty.string_of_uint u).

(** What follows a value in an encoded text: nothing, a comma, or the line
    of the closing bracket. *)
Definition delimited (rest : text) : Prop :=
  match rest with
  | [] => True
  | c :: _ => c = "," \/ c = "010"
  end.

(** The number of nodes of a payload bounds the nesting of the decoder on
    its text. *)
Fixpoint osize (x : pyobj) : nat :=
  match x with
  | OList l | OTuple l => S (list_sum (map osize l))
  | ODict d => S (list_sum (map (fun kv => osize (snd kv)) d))
  | _ => 1
  end.

(** [scan] reads the text of [x] at nesting [level + 1] back as its
    canonical value. *)
Definition reads_back (scan : text -> result (pyval * text)) (level : nat)
    (x : pyobj) : Prop :=
  forall rest, delimited rest ->
    scan (encode (S level) x ++ rest) = Ok (canonical x, rest).

(** The text and the canonical value of one entry of a dictionary. *)
Definition encode_pair (level : nat) (kv : pykey * pyobj) : text :=
  encode_string (key_str (fst kv)) ++ ":" :: " " :: encode (S level) (snd kv).

Definition canonical_pair (kv : pykey * pyobj) : string * pyval :=
  (key_str (fst kv), canonical (snd kv)).

(** The dictionaries of a Python value have no repeated key. *)
Fixpoint unique_keys (v : pyval) : bool :=
  match v with
  | VList l => forallb unique_keys l
  | VDict d =>
      bool_decide (NoDup (map fst d))
      && forallb (fun kv => unique_keys (snd kv)) d
  | _ => true
  end.

End Json.

(** ** The file system, the clock and the logging context

    The world a tool call runs in: the files by path, each with its time
    of last modification and its text; the paths on which opening for
    writing and unlinking raise [OSError] (a missing parent directory, a
    permission that is lacking); the messages sent to [ctx].  Paths are
    plain strings: the normalisation [pathlib] applies to a joined path is
    not modelled. *)

Record file : Type := { f_mtime : Q; f_content : string }.

Record world : Type := {
  w_files : gmap string file;
  w_denied : gset string;
  w_log : list (string * string)
}.

Record clock : Type := { now_ts : Q; now_iso : string }.

Definition set_files (fs : gmap string file) (w : world) : world :=
  {| w_files := fs; w_denied := w_denied w; w_log := w_log w |}.

Definition ctx_log (level msg : string) (w : world) : world :=
  {| w_files := w_files w; w_denied := w_denied w;
     w_log := w_log w ++ [(level, msg)] |}.

Definition ctx_info := ctx_log "info".
Definition ctx_error := ctx_log "error".

Definition is_denied (path : string) (w : world) : bool :=
  bool_decide (path ∈ w_denied w).

(** [Path(path).exists()]. *)
Definition path_exists (path : string) (w : world) : bool :=
  match w_files w !! path with Some _ => true | None => false end.

(** [open(path, 'w')] followed by one [write]. *)
Definition fs_write (path content : string) (now : Q) (w : world)
  : world * result unit :=
  if is_denied path w then (w, Raise OSError)
  else (set_files (<[path := {| f_mtime := now; f_content := content |}]> (w_files w)) w,
        Ok tt).

(** [open(path, 'r')] followed by [read]. *)
Definition fs_read (path : string) (w : world) : result string :=
  match w_files w !! path with
  | Some f => Ok (f_content f)
  | None => Raise OSError
  end.

(** [path.stat().st_mtime]. *)
Definition fs_mtime (path : string) (w : world) : result Q :=
  match w_files w !! path with
  | Some f => Ok (f_mtime f)
  | None => Raise OSError
  end.

(** [path.unlink()]. *)
Definition fs_unlink (path : string) (w : world) : world * result unit :=
  if is_denied path w then (w, Raise OSError)
  else match w_files w !! path with
       | Some _ => (set_files (delete path (w_files w)) w, Ok tt)
       | None => (w, Raise OSError)
       end.

Definition DATA_DIR : string := "datadog_cache".

(** [str(DATA_DIR / filename)]. *)
Definition path_in_data_dir (filename : string) : string :=
  DATA_DIR +:+ "/" +:+ filename.

Fixpoint strip_prefix (p s : string) : option string :=
  match p, s with
  | EmptyString, _ => Some s
  | String a p', String b s' => if Ascii.eqb a b then strip_prefix p' s' else None
  | String _ _, EmptyString => None
  end.

Definition ends_with (suffix s : string) : bool :=
  let n := String.length s in
  let k := String.length suffix in
  (k <=? n)%nat && String.eqb (substring (n - k) k s) suffix.

(** Does [path] name an entry of [DATA_DIR] that the pattern ["*.json"]
    matches? *)
Definition glob_match_json (path : string) : bool :=
  match strip_prefix (DATA_DIR +:+ "/") path with
  | Some name => negb (is_substring "/" name) && ends_with ".json" name
  | None => false
  end.

(** [DATA_DIR.glob("*.json")]: the matching paths, in the order the
    directory lists them. *)
Definition glob_json (w : world) : list string :=
  filter (fun p => glob_match_json p = true) (map_to_list (w_files w)).*1.

(** ** [_store_data] *)

(** [int(x)] of a float: truncation toward zero. *)
Definition py_int_of_float (q : Q) : Z := Z.quot (Qnum q) (Z.pos (Qden q)).

(** The first four lines of [_store_data]: the path of the new file. *)
Definition store_path (prefix : string) (clk : clock) (uuid4 : string) : string :=
  let timestamp := py_int_of_float (now_ts clk) in
  let unique_id := substring 0 8 uuid4 in
  let filename :=
    prefix +:+ "_" +:+ py_str_int timestamp +:+ "_" +:+ unique_id +:+ ".json" in
  path_in_data_dir filename.

Definition _store_data (data : pyobj) (prefix : string) (clk : clock)
    (uuid4 : string) (w : world) : world * result string :=
  let filepath := store_path prefix clk uuid4 in
  match fs_write filepath (Json.dumps data) (now_ts clk) w with
  | (w', Ok _) => (w', Ok filepath)
  | (w', Raise e) => (w', Raise e)
  end.

(** ** [cleanup_cache] *)

(** The [for] loop over the listing: an exception leaves the loop, and what
    was unlinked before stays unlinked. *)
Fixpoint cleanup_loop (cutoff_time : Q) (paths : list string)
    (deleted_count : Z) (w : world) : world * result Z :=
  match paths with
  | [] => (w, Ok deleted_count)
  | file_path :: paths' =>
      match fs_mtime file_path w with
      | Raise e => (w, Raise e)
      | Ok mtime =>
          if Qltb mtime cutoff_time then
            match fs_unlink file_path w with
            | (w', Ok _) => cleanup_loop cutoff_time paths' (deleted_count + 1) w'
            | (w', Raise e) => (w', Raise e)
            end
          else cleanup_loop cutoff_time paths' deleted_count w
      end
  end.

Definition cutoff_of (clk : clock) (older_than_hours : Z) : Q :=
  (now_ts clk - inject_Z (older_than_hours * 3600))%Q.

Definition str_val (s : string) : rval := RVal (VStr s).

Definition cleanup_cache (older_than_hours : Z) (clk : clock) (w : world)
  : world * rdict :=
  let cutoff_time := cutoff_of clk older_than_hours in
  match cleanup_loop cutoff_time (glob_json w) 0 w with
  | (w', Ok deleted_count) =>
      let msg := "Cleaned up " +:+ py_str_int deleted_count
                 +:+ " files older than " +:+ py_str_int older_than_hours
                 +:+ " hours" in
      (ctx_info msg w',
       [("summary", str_val msg);
        ("deleted_count", RVal (VInt deleted_count));
        ("cache_directory", str_val DATA_DIR)])
  | (w', Raise e) =>
      let msg := "Failed to cleanup cache: " +:+ str_exn e in
      (ctx_error msg w', [("error", str_val msg)])
  end.

(** ** [analyze_data] *)

(** The three analyzers the dispatcher chooses from. *)
Record analyzers : Type := {
  an_summary : pyval -> result rdict;
  an_stats : pyval -> result rdict;
  an_trends : pyval -> result rdict
}.

(** Reading the file and [json.loads] of its text. *)
Definition load_data (filepath : string) (w : world) : result pyval :=
  let* content := fs_read filepath w in
  Json.loads content.

(** The chain of [if]/[elif] on [analysis_type]; [None] is the [return] of
    the [else] branch. *)
Definition dispatch (an : analyzers) (analysis_type : string) (data : pyval)
  : result (option rdict) :=
  if String.eqb analysis_type "summary" then
    let* result := an_summary an data in Ok (Some result)
  else if String.eqb analysis_type "stats" then
    let* result := an_stats an data in Ok (Some result)
  else if String.eqb analysis_type "trends" then
    let* result := an_trends an data in Ok (Some result)
  else Ok None.

Definition error_result (msg : string) : rdict := [("error", str_val msg)].

(** What [analyze_data] answers once the [try] block has run: the result
    of an analyzer, the [return] of the [else] branch, or the handler of
    [except Exception]. *)
Definition respond (filepath analysis_type : string) (w : world)
    (outcome : result (option rdict)) : world * rdict :=
  match outcome with
  | Ok (Some result) =>
      (ctx_info ("Completed " +:+ analysis_type +:+ " analysis of " +:+ filepath) w,
       [("analysis_type", str_val analysis_type);
        ("filepath", str_val filepath);
        ("result", RDict result)])
  | Ok None =>
      (w, error_result ("Unknown analysis type: " +:+ analysis_type))
  | Raise e =>
      let msg := "Analysis failed: " +:+ str_exn e in
      (ctx_error msg w, error_result msg)
  end.

Definition analyze_data_with (an : analyzers) (filepath analysis_type : string)
    (w : world) : world * rdict :=
  if negb (path_exists filepath w) then
    (w, error_result ("Data file not found: " +:+ filepath))
  else
    respond filepath analysis_type w
      (let* data := load_data filepath w in dispatch an analysis_type data).

Definition the_analyzers (clk : clock) : analyzers :=
  {| an_summary := _generate_summary;
     an_stats := _calculate_stats (now_iso clk);
     an_trends := _analyze_trends (now_iso clk) |}.

Definition analyze_data (filepath analysis_type : string) (clk : clock)
    (w : world) : world * rdict :=
  analyze_data_with (the_analyzers clk) filepath analysis_type w.

(** ** Time-series artifacts as the specification sees them

    A point [[t, v]] has a timestamp, which the analyzers never look at,
    and a value that may be [null]. *)

Abbreviation point := (pyval * option Z)%type.

Definition pv_value (v : option Z) : pyval :=
  match v with
  | Some z => VInt z
  | None => VNone
  end.

Definition pv_point (p : point) : pyval := VList [fst p; pv_value (snd p)].

(** The values of a pointlist with the nulls dropped, and the flat value
    sequence of all series. *)
Definition non_null (pl : list point) : list Z := omap snd pl.

Definition flat_values (pls : list (list point)) : list Z :=
  concat (map non_null pls).

(** [series_view s pl]: the JSON object [s] is a series whose pointlist is
    [pl]; a series without the key ["pointlist"] has no points. *)
Inductive series_view : pyval -> list point -> Prop :=
| sv_points sd pl :
    dict_get sd "pointlist" = Some (VList (map pv_point pl)) ->
    series_view (VDict sd) pl
| sv_absent sd :
    dict_get sd "pointlist" = None ->
    series_view (VDict sd) [].

(** [artifact_view data pls]: the JSON object [data] holds the series
    [pls]; an object without the key ["series"] holds none. *)
Inductive artifact_view : pyval -> list (list point) -> Prop :=
| av_series d ss pls :
    dict_get d "series" = Some (VList ss) ->
    Forall2 series_view ss pls ->
    artifact_view (VDict d) pls
| av_absent d :
    dict_get d "series" = None ->
    artifact_view (VDict d) [].

Definition list_sum_Z (zs : list Z) : Z := fold_right Z.add 0 zs.

(** What the specification asks of the Statistics analyzer on the flat
    value sequence [zs]. *)
Definition stats_spec (now_iso : string) (zs : list Z) : rdict :=
  match zs with
  | [] => [("calculated_at", str_val now_iso)]
  | z :: zs' =>
      [("calculated_at", str_val now_iso);
       ("min_value", RVal (VInt (fold_left Z.min zs' z)));
       ("max_value", RVal (VInt (fold_left Z.max zs' z)));
       ("avg_value",
        RFloat (Qred (inject_Z (list_sum_Z zs) / inject_Z (Z.of_nat (length zs)))%Q));
       ("total_points", RVal (VInt (Z.of_nat (length zs))))]
  end.

(** The statistics scenario of the specification. *)
Definition stats_scenario : pyval :=
  VDict [("series",
          VList [VDict [("pointlist",
                         VList [VList [VInt 1; VInt 10]; VList [VInt 2; VInt 20]])];
                 VDict [("pointlist",
                         VList [VList [VInt 1; VInt 30]; VList [VInt 2; VNone];
                                VList [VInt 3; VInt 40]])]])].











(** ** Notions used to state the properties of the tools *)



(** A file whose last modification is strictly older than the cutoff. *)
Definition stale (cutoff : Q) (w : world) (path : string) : bool :=
  match w_files w !! path with
  | Some f => Qltb (f_mtime f) cutoff
  | None => false
  end.

(** An artifact of the cache that is stale. *)
Definition evicted (cutoff : Q) (w : world) (path : string) : bool :=
  glob_match_json path && stale cutoff w path.

(** The modes [analyze_data] knows. *)
Definition known_type (analysis_type : string) : bool :=
  String.eqb analysis_type "summary" || String.eqb analysis_type "stats"
  || String.eqb analysis_type "trends".

(** A cache with two stale artifacts, a fresh one, and a file that is not
    an artifact; the clock reads 90000 seconds. *)
Definition old_file : file := {| f_mtime := 1000 # 1; f_content := "[]" |}.
Definition new_file : file := {| f_mtime := 90000 # 1; f_content := "{}" |}.

Definition demo_world (denied : gset string) : world :=
  {| w_files :=
       <["datadog_cache/metrics_1000_aaaaaaaa.json" := old_file]>
         (<["datadog_cache/events_1000_bbbbbbbb.json" := old_file]>
            (<["datadog_cache/users_90000_cccccccc.json" := new_file]>
               (<["notes.txt" := old_file]> ∅)));
     w_denied := denied;
     w_log := [] |}.

Definition demo_clock : clock := {| now_ts := 90000 # 1; now_iso := "t" |}.

(** A payload with a key that is not a string and a value that is not
    JSON-native. *)
Definition demo_payload : pyobj :=
  ODict [(KStr "events", OList [ODict [(KStr "id", OInt 1)]; ODict [(KStr "id", OInt (-2))]]);
         (KInt 7, OOther "2024-01-01 00:00:00+00:00");
         (KStr "note", OStr "C:\temp")].

(** ** Counting the points and the monitors of an artifact *)

(** The number of points of all series, the null ones included. *)
Definition point_count (pls : list (list point)) : Z :=
  list_sum_Z (map (fun pl => Z.of_nat (length pl)) pls).

Definition is_null (p : point) : bool :=
  match snd p with
  | None => true
  | Some _ => false
  end.

(** The number of points whose value is null. *)
Definition null_count (pls : list (list point)) : Z :=
  Z.of_nat (length (filter (fun p => is_null p = true) (concat pls))).

Definition is_dict (v : pyval) : bool :=
  match v with VDict _ => true | _ => false end.

(** A monitor object whose ["overall_state"] is the string ["Alert"]. *)
Definition is_alerting (m : pyval) : bool :=
  match m with
  | VDict d =>
      match dict_get d "overall_state" with
      | Some st => py_eq_str st "Alert"
      | None => false
      end
  | _ => false
  end.

Definition alerting_count_of (ms : list pyval) : Z :=
  Z.of_nat (length (filter (fun m => is_alerting m = true) ms)).

(** ** Configuration from the environment *)

Record DatadogConfig : Type := {
  api_key : string;
  app_key : string;
  site : string
}.

(** [_load_config]; [environ] is the environment of the process, and
    [not s] holds of an unset variable and of the empty string. *)
Definition _load_config (environ : gmap string string) : result DatadogConfig :=
  let api_key := environ !! "DATADOG_API_KEY" in
  let app_key := environ !! "DATADOG_APP_KEY" in
  let site := default "datadoghq.com" (environ !! "DATADOG_SITE") in
  match api_key, app_key with
  | Some api_key, Some app_key =>
      if String.eqb api_key "" || String.eqb app_key "" then Raise ValueError
      else Ok {| api_key := api_key; app_key := app_key; site := site |}
  | _, _ => Raise ValueError
  end.

(** ** The tools that fetch and store

    A tool runs in the world, may raise, and leaves the world it reached
    when it raises.  The answer of the Datadog API is an argument: the
    value [response.to_dict()] yields, or the exception the call raises.
    These values are taken among the JSON values; the payload handed to
    [_store_data] is their image [Json.of_pyval]. *)

Definition tool (A : Type) : Type := world -> world * result A.

Definition tret {A} (a : A) : tool A := fun w => (w, Ok a).

Definition tbind {A B} (m : tool A) (k : A -> tool B) : tool B :=
  fun w =>
    match m w with
    | (w', Ok a) => k a w'
    | (w', Raise e) => (w', Raise e)
    end.

Definition tlift {A} (r : result A) : tool A := fun w => (w, r).

Definition tinfo (msg : string) : tool unit := fun w => (ctx_info msg w, Ok tt).

Notation "'let+' x ':=' m 'in' k" := (tbind m (fun x => k))
  (at level 10, x pattern, m at level 100, k at level 200).

(** [try: body except Exception as e:] with the handler every tool has:
    the message goes to [ctx.error] and into the result. *)
Definition try_except {V} (wrap : pyval -> V) (failure : string)
    (body : tool (list (string * V))) (w : world) : world * list (string * V) :=
  match body w with
  | (w', Ok r) => (w', r)
  | (w', Raise e) =>
      let msg := failure +:+ ": " +:+ str_exn e in
      (ctx_error msg w', [("error", wrap (VStr msg))])
  end.

(** *** [get_metrics] *)

(** The two counts [get_metrics] reports: [series_count] and
    [total_points]. *)
Definition metrics_counts (data : pyval) : result (Z * Z) :=
  let* series := py_get data "series" (VList []) in
  let* series_count := py_len series in
  let* series := py_get data "series" (VList []) in
  let* ss := py_iter series in
  let* total_points := sum_point_counts 0 ss in
  Ok (series_count, total_points).

Definition get_metrics (query : string) (from_timestamp to_timestamp : Z)
    (response : result pyval) (clk : clock) (uuid4 : string)
  : world -> world * rdict :=
  try_except RVal "Failed to get metrics"
    (let+ data := tlift response in
     let+ filepath := _store_data (Json.of_pyval data) "metrics" clk uuid4 in
     let+ (series_count, total_points) := tlift (metrics_counts data) in
     let msg := "Retrieved " +:+ py_str_int series_count
                +:+ " metric series with " +:+ py_str_int total_points
                +:+ " data points" in
     let+ _ := tinfo msg in
     tret [("filepath", str_val filepath);
           ("summary", str_val msg);
           ("series_count", RVal (VInt series_count));
           ("data_points", RVal (VInt total_points));
           ("query", str_val query);
           ("time_range",
            str_val (py_str_int from_timestamp +:+ " to " +:+ py_str_int to_timestamp))]).

(** *** [get_events] *)

(** An argument of type [Optional[str]]. *)
Definition opt_str (o : option string) : pyval :=
  match o with
  | Some s => VStr s
  | None => VNone
  end.

(** The keyword arguments of [list_events]. *)
Definition events_kwargs (start end_ : Z) (priority sources : option string)
  : list (string * pyval) :=
  let kwargs := [("start", VInt start); ("end", VInt end_)] in
  let kwargs := if py_truthy (opt_str priority)
                then dict_set kwargs "priority" (opt_str priority) else kwargs in
  if py_truthy (opt_str sources)
  then dict_set kwargs "sources" (opt_str sources) else kwargs.

Definition get_events (start end_ : Z) (priority sources : option string)
    (list_events : list (string * pyval) -> result pyval)
    (clk : clock) (uuid4 : string) : world -> world * rdict :=
  try_except RVal "Failed to get events"
    (let kwargs := events_kwargs start end_ priority sources in
     let+ data := tlift (list_events kwargs) in
     let+ filepath := _store_data (Json.of_pyval data) "events" clk uuid4 in
     let+ events := tlift (py_get data "events" (VList [])) in
     let+ n := tlift (py_len events) in
     let msg := "Retrieved " +:+ py_str_int n +:+ " events" in
     let+ _ := tinfo msg in
     tret [("filepath", str_val filepath);
           ("summary", str_val msg);
           ("event_count", RVal (VInt n));
           ("time_range", str_val (py_str_int start +:+ " to " +:+ py_str_int end_));
           ("priority_filter", RVal (opt_str priority));
           ("sources_filter", RVal (opt_str sources))]).

(** *** [get_monitors] *)

(** The dictionary [states]: its keys are the values found under
    "overall_state".  Lists and dictionaries are not hashable; [True] and
    [1] are one key, as are [False] and [0]. *)
Definition hashable (v : pyval) : bool :=
  match v with
  | VList _ | VDict _ => false
  | _ => true
  end.

Definition py_key_eq (a b : pyval) : bool :=
  match a, b with
  | VNone, VNone => true
  | VStr s, VStr t => String.eqb s t
  | _, _ =>
      match num_of a, num_of b with
      | Some x, Some y => x =? y
      | _, _ => false
      end
  end.

Abbreviation counts := (list (pyval * Z)).

(** [states.get(k, default)]. *)
Fixpoint counts_get (states : counts) (k : pyval) (default : Z) : Z :=
  match states with
  | [] => default
  | (k', n) :: states' =>
      if py_key_eq k' k then n else counts_get states' k default
  end.

(** [states[k] = n]: an existing key keeps its place and its first
    spelling. *)
Fixpoint counts_set (states : counts) (k : pyval) (n : Z) : counts :=
  match states with
  | [] => [(k, n)]
  | (k', n') :: states' =>
      if py_key_eq k' k then (k', n) :: states'
      else (k', n') :: counts_set states' k n
  end.

(** The loop [for monitor in data]. *)
Fixpoint count_states (states : counts) (data : list pyval) : result counts :=
  match data with
  | [] => Ok states
  | monitor :: data' =>
      let* state := py_get monitor "overall_state" (VStr "Unknown") in
      if hashable state
      then count_states (counts_set states state (counts_get states state 0 + 1)) data'
      else Raise TypeError
  end.

(** A value of the result of [get_monitors]: a JSON value, or the
    dictionary of states. *)
Inductive tval : Type :=
| TVal (v : pyval)
| TStates (states : counts).

Definition get_monitors (response : result (list pyval)) (clk : clock)
    (uuid4 : string) : world -> world * list (string * tval) :=
  try_except TVal "Failed to get monitors"
    (let+ data := tlift response in
     let+ filepath := _store_data (Json.of_pyval (VList data)) "monitors" clk uuid4 in
     let+ states := tlift (count_states [] data) in
     let msg := "Retrieved " +:+ py_str_int (Z.of_nat (length data)) +:+ " monitors" in
     let+ _ := tinfo msg in
     tret [("filepath", TVal (VStr filepath));
           ("summary", TVal (VStr msg));
           ("total_monitors", TVal (VInt (Z.of_nat (length data))));
           ("monitor_states", TStates states);
           ("alerting_count", TVal (VInt (counts_get states (VStr "Alert") 0)))]).

(** *** [get_infrastructure] *)

(** [sum(1 for h in hosts if h.get("up", False))]. *)
Fixpoint count_up (acc : Z) (hosts : list pyval) : result Z :=
  match hosts with
  | [] => Ok acc
  | h :: hosts' =>
      let* up := py_get h "up" (VBool false) in
      count_up (if py_truthy up then acc + 1 else acc) hosts'
  end.

(** [host_list] is [None] for a response without the attribute
    [host_list], and the list of the [to_dict()] of its hosts
    otherwise. *)
Definition get_infrastructure (response : result (option (list pyval)))
    (clk : clock) (uuid4 : string) : world -> world * rdict :=
  try_except RVal "Failed to get infrastructure"
    (let+ host_list := tlift response in
     let hosts := match host_list with
                  | Some hosts => hosts
                  | None => []
                  end in
     let data := VDict [("host_list", VList hosts)] in
     let+ filepath := _store_data (Json.of_pyval data) "infrastructure" clk uuid4 in
     let+ active_hosts := tlift (count_up 0 hosts) in
     let total := Z.of_nat (length hosts) in
     let msg := "Found " +:+ py_str_int total +:+ " hosts ("
                +:+ py_str_int active_hosts +:+ " active)" in
     let+ _ := tinfo msg in
     tret [("filepath", str_val filepath);
           ("summary", str_val msg);
           ("total_hosts", RVal (VInt total));
           ("active_hosts", RVal (VInt active_hosts));
           ("inactive_hosts", RVal (VInt (total - active_hosts)))]).

(** *** The monitor passed to [create_monitor] and [update_monitor] *)

(** An argument of type [Optional[Dict[str, Any]]] in [if options:]. *)
Definition with_options (cfg : list (string * pyval))
    (options : option (list (string * pyval))) : list (string * pyval) :=
  match options with
  | Some o => if py_truthy (VDict o) then dict_update cfg o else cfg
  | None => cfg
  end.

(** [monitor_config] of [create_monitor]. *)
Definition monitor_config (name monitor_type query message : string)
    (options : option (list (string * pyval))) : list (string * pyval) :=
  let monitor_config := [("name", VStr name);
                         ("type", VStr monitor_type);
                         ("query", VStr query);
                         ("message", VStr message)] in
  with_options monitor_config options.

(** [update_data] of [update_monitor], from the [to_dict()] of the
    existing monitor. *)
Definition update_data (existing : list (string * pyval))
    (name query message : option string)
    (options : option (list (string * pyval))) : list (string * pyval) :=
  let update_data := existing in
  let update_data := if py_truthy (opt_str name)
                     then dict_set update_data "name" (opt_str name)
                     else update_data in
  let update_data := if py_truthy (opt_str query)
                     then dict_set update_data "query" (opt_str query)
                     else update_data in
  let update_data := if py_truthy (opt_str message)
                     then dict_set update_data "message" (opt_str message)
                     else update_data in
  with_options update_data options.

(** ** Notions used to state the properties of the fetching tools *)

(** The sum of the counts of a dictionary of states. *)
Definition counts_total (states : counts) : Z := list_sum_Z (map snd states).

(** A host object whose ["up"] is true in a condition. *)
Definition is_up (h : pyval) : bool :=
  match h with
  | VDict d =>
      match dict_get d "up" with
      | Some up => py_truthy up
      | None => false
      end
  | _ => false
  end.

(** The argument of [update_monitor] that goes with a key. *)
Definition field_arg (name query message : option string) (k : string)
  : option string :=
  if String.eqb k "name" then name
  else if String.eqb k "query" then query
  else if String.eqb k "message" then message
  else None.

(** The value [options] holds under a key, if any. *)
Definition option_of (options : option (list (string * pyval))) (k : string)
  : option pyval :=
  match options with
  | Some o => dict_get o k
  | None => None
  end.

(** [options] is a dictionary: no key occurs twice. *)
Definition options_wf (options : option (list (string * pyval))) : Prop :=
  match options with
  | Some o => NoDup (map fst o)
  | None => True
  end.

(** * Properties *)

(** Inversion of a successful bind. *)
Ltac bind_inv H :=
  match type of H with
  | rbind ?m _ = Ok _ =>
      let x := fresh "x" in
      let E := fresh "E" in
      destruct m as [x|?] eqn:E; cbn [rbind] in H; [|discriminate H]
  end.

(** ** Dictionaries *)

Lemma dict_get_set_eq {A} (d : list (string * A)) k v :
  dict_get (dict_set d k v) k = Some v.
Proof.
  induction d as [|[k' v'] d IH]; simpl.
  - by rewrite String.eqb_refl.
  - destruct (String.eqb k' k) eqn:E; simpl.
    + by rewrite String.eqb_refl.
    + by rewrite E.
Qed.

Lemma dict_get_set_ne {A} (d : list (string * A)) k k' v :
  k <> k' -> dict_get (dict_set d k v) k' = dict_get d k'.
Proof.
  intros Hne. induction d as [|[k0 v0] d IH]; simpl.
  - destruct (String.eqb k k') eqn:E; [|done].
    apply String.eqb_eq in E. contradiction.
  - destruct (String.eqb k0 k) eqn:E; simpl.
    + apply String.eqb_eq in E. subst k0.
      destruct (String.eqb k k') eqn:E'; [|done].
      apply String.eqb_eq in E'. contradiction.
    + by rewrite IH.
Qed.

(** ** The value sequence of well-formed series *)

Lemma non_null_values_points (pl : list point) :
  non_null_values (map pv_point pl) = Ok (map VInt (non_null pl)).
Proof.
  induction pl as [|[t [z|]] pl IH]; [done| |]; simpl; rewrite ?IH; done.
Qed.

Lemma collect_values_view ss pls acc :
  Forall2 series_view ss pls ->
  collect_values acc ss = Ok (acc ++ map VInt (flat_values pls)).
Proof.
  intros H. revert acc.
  induction H as [|s pl ss pls Hs _ IH]; intros acc; simpl.
  - by rewrite app_nil_r.
  - destruct Hs as [sd pl Hpl|sd Hpl]; simpl; unfold dict_has; rewrite Hpl; simpl.
    + rewrite non_null_values_points. simpl. rewrite IH.
      unfold flat_values. simpl. by rewrite map_app, app_assoc.
    + rewrite IH. done.
Qed.

Lemma min_loop_ints b zs :
  min_loop (VInt b) (map VInt zs) = Ok (VInt (fold_left Z.min zs b)).
Proof.
  revert b. induction zs as [|z zs IH]; intros b; [done|].
  cbn [map min_loop py_lt py_num num_of rbind fold_left].
  destruct (z <? b) eqn:E; rewrite IH; do 3 f_equal; lia.
Qed.

Lemma max_loop_ints b zs :
  max_loop (VInt b) (map VInt zs) = Ok (VInt (fold_left Z.max zs b)).
Proof.
  revert b. induction zs as [|z zs IH]; intros b; [done|].
  cbn [map max_loop py_lt py_num num_of rbind fold_left].
  destruct (b <? z) eqn:E; rewrite IH; do 3 f_equal; lia.
Qed.

Lemma sum_loop_ints acc zs :
  sum_loop acc (map VInt zs) = Ok (acc + list_sum_Z zs).
Proof.
  revert acc. induction zs as [|z zs IH]; intros acc; simpl.
  - f_equal. lia.
  - rewrite IH. f_equal. lia.
Qed.

Lemma stats_fields_ints now zs :
  zs <> [] ->
  (let* fields := stats_fields (map VInt zs) in
   Ok (dict_update [("calculated_at", str_val now)] fields))
  = Ok (stats_spec now zs).
Proof.
  destruct zs as [|z zs]; [done|]. intros _.
  unfold stats_fields, py_sum. cbn [map py_min py_max].
  rewrite min_loop_ints, max_loop_ints. cbn [rbind].
  change (VInt z :: map VInt zs) with (map VInt (z :: zs)).
  rewrite sum_loop_ints. cbn [rbind].
  rewrite length_map. reflexivity.
Qed.

(** ** Aggregates of arbitrary value lists *)









(** ** The Statistics analyzer *)

Lemma calculate_stats_view now data pls :
  artifact_view data pls ->
  _calculate_stats now data = Ok (stats_spec now (flat_values pls))
  /\ (flat_values pls = [] ->
      _calculate_stats now data = Ok [("calculated_at", str_val now)]).
Proof.
  intros Hview.
  assert (Hmain : _calculate_stats now data = Ok (stats_spec now (flat_values pls))).
  { destruct Hview as [d ss pls Hd Hss|d Hd]; unfold _calculate_stats;
      cbn [py_in rbind]; unfold dict_has; rewrite Hd; [|done].
    cbn [py_getitem_key rbind]. rewrite Hd. cbn [py_iter rbind].
    rewrite (collect_values_view _ _ [] Hss). cbn [rbind app].
    destruct (flat_values pls) as [|z zs] eqn:Hflat; [done|].
    cbn [map py_truthy].
    change (VInt z :: map VInt zs) with (map VInt (z :: zs)).
    by apply stats_fields_ints. }
  split; [done|].
  intros Hnil. by rewrite Hmain, Hnil.
Qed.





(** ** The Trend analyzer *)

Lemma Qltb_lt a b : Qltb a b = true <-> (a < b)%Q.
Proof.
  unfold Qltb. rewrite negb_true_iff.
  split.
  - intros H. apply Qnot_le_lt. intros Hle.
    apply Qle_bool_iff in Hle. congruence.
  - intros H. destruct (Qle_bool b a) eqn:E; [|done].
    apply Qle_bool_iff in E. exfalso. by apply (Qlt_not_le a b).
Qed.






Lemma list_index_head {A} (x : A) l : list_index (x :: l) 0 = Ok x.
Proof.
  unfold list_index. cbn [length Z.ltb Z.compare orb].
  destruct (Z.leb_spec (Z.of_nat (S (length l))) 0) as [E|E]; [lia|done].
Qed.








(** ** The Summary analyzer *)







(** ** Absent and malformed fields *)







(** ** Eviction *)

Lemma cleanup_loop_app cutoff l1 l2 n w :
  cleanup_loop cutoff (l1 ++ l2) n w
  = match cleanup_loop cutoff l1 n w with
    | (w1, Ok n1) => cleanup_loop cutoff l2 n1 w1
    | (w1, Raise e) => (w1, Raise e)
    end.
Proof.
  revert n w. induction l1 as [|p l1 IH]; intros n w; [done|].
  cbn [app cleanup_loop].
  destruct (fs_mtime p w) as [mtime|e]; [|done].
  destruct (Qltb mtime cutoff); [|apply IH].
  destruct (fs_unlink p w) as [w' [[]|e]]; [apply IH|done].
Qed.

Lemma stale_set_files_delete cutoff w p q :
  p <> q ->
  stale cutoff (set_files (delete p (w_files w)) w) q = stale cutoff w q.
Proof.
  intros Hne. unfold stale. cbn [w_files set_files].
  by rewrite lookup_delete_ne.
Qed.

Lemma filter_stale_ext cutoff w w1 (paths : list string) :
  (forall q, q ∈ paths -> stale cutoff w1 q = stale cutoff w q) ->
  filter (fun p => stale cutoff w1 p = true) paths
  = filter (fun p => stale cutoff w p = true) paths.
Proof.
  induction paths as [|p paths IH]; intros H; [done|].
  rewrite !filter_cons. rewrite (H p) by left.
  rewrite IH; [done|]. intros q Hq. apply H. by right.
Qed.

(** A scan in which no deletion fails removes the stale files it lists and
    counts them. *)
Lemma cleanup_loop_ok cutoff paths n w :
  NoDup paths ->
  (forall p, p ∈ paths -> is_Some (w_files w !! p)) ->
  (forall p, p ∈ paths -> stale cutoff w p = true -> is_denied p w = false) ->
  exists w',
    cleanup_loop cutoff paths n w
    = (w', Ok (n + Z.of_nat (length (filter (fun p => stale cutoff w p = true) paths))))
    /\ w_denied w' = w_denied w /\ w_log w' = w_log w
    /\ forall q,
         w_files w' !! q
         = if bool_decide (q ∈ paths) && stale cutoff w q then None
           else w_files w !! q.
Proof.
  revert n w. induction paths as [|p paths IH]; intros n w Hnd Hex Hok.
  - exists w. cbn [cleanup_loop]. rewrite filter_nil.
    split; [f_equal; f_equal; simpl; lia|]. repeat split; try done.
  - apply NoDup_cons in Hnd as [Hp Hnd].
    destruct (Hex p) as [f Hf]; [left|].
    cbn [cleanup_loop]. unfold fs_mtime. rewrite Hf.
    assert (Hstale : stale cutoff w p = Qltb (f_mtime f) cutoff)
      by (unfold stale; by rewrite Hf).
    destruct (Qltb (f_mtime f) cutoff) eqn:Hlt.
    + unfold fs_unlink. rewrite (Hok p); [|left|done]. rewrite Hf.
      set (w1 := set_files (delete p (w_files w)) w).
      assert (Hsame : forall q, q ∈ paths -> stale cutoff w1 q = stale cutoff w q).
      { intros q Hq. apply stale_set_files_delete. intros ->. done. }
      destruct (IH (n + 1) w1 Hnd) as (w' & Hloop & Hden & Hlog & Hfiles).
      * intros q Hq. subst w1. cbn [w_files set_files].
        rewrite lookup_delete_ne; [|intros ->; done]. apply Hex. by right.
      * intros q Hq Hs. rewrite Hsame in Hs by done.
        change (is_denied q w1) with (is_denied q w). apply Hok; [by right|done].
      * exists w'. rewrite Hloop. split; [|split; [done|split; [done|]]].
        -- f_equal. f_equal. rewrite filter_cons_True by done. cbn [length].
           rewrite (filter_stale_ext cutoff w w1 paths Hsame). lia.
        -- intros q. rewrite Hfiles.
           destruct (decide (q = p)) as [->|Hne].
           ++ rewrite Hstale. rewrite (bool_decide_eq_true_2 (p ∈ p :: paths)) by left.
              rewrite (bool_decide_eq_false_2 (p ∈ paths)) by done.
              cbn [andb]. subst w1. cbn [w_files set_files].
              by rewrite lookup_delete_eq.
           ++ subst w1.
              rewrite (stale_set_files_delete cutoff w p q) by congruence.
              assert (Hdec : bool_decide (q ∈ p :: paths) = bool_decide (q ∈ paths)).
              { apply bool_decide_ext. rewrite elem_of_cons. intuition congruence. }
              rewrite Hdec. cbn [w_files set_files].
              by rewrite lookup_delete_ne by congruence.
    + destruct (IH n w Hnd) as (w' & Hloop & Hden & Hlog & Hfiles).
      * intros q Hq. apply Hex. by right.
      * intros q Hq. apply Hok. by right.
      * exists w'. rewrite Hloop. split; [|split; [done|split; [done|]]].
        -- rewrite filter_cons_False; [done|]. rewrite Hstale. done.
        -- intros q. rewrite Hfiles.
           destruct (decide (q = p)) as [->|Hne].
           ++ rewrite Hstale, !andb_false_r. done.
           ++ assert (Hdec : bool_decide (q ∈ p :: paths) = bool_decide (q ∈ paths)).
              { apply bool_decide_ext. rewrite elem_of_cons. intuition congruence. }
              by rewrite Hdec.
Qed.

(** The listing: the artifacts of the cache, each once. *)
Lemma elem_of_glob_json w p :
  p ∈ glob_json w <-> glob_match_json p = true /\ is_Some (w_files w !! p).
Proof.
  unfold glob_json. rewrite list_elem_of_filter, list_elem_of_fmap.
  split.
  - intros (Hg & [q f] & -> & Hin). split; [done|].
    apply elem_of_map_to_list in Hin. by exists f.
  - intros (Hg & f & Hf). split; [done|].
    exists (p, f). split; [done|]. by apply elem_of_map_to_list.
Qed.

Lemma NoDup_glob_json w : NoDup (glob_json w).
Proof. apply NoDup_filter, NoDup_fst_map_to_list. Qed.

Lemma filter_evicted cutoff w :
  filter (fun p => stale cutoff w p = true) (glob_json w)
  = filter (fun p => evicted cutoff w p = true) (map_to_list (w_files w)).*1.
Proof.
  unfold glob_json, evicted.
  induction ((map_to_list (w_files w)).*1) as [|p l IH]; [done|].
  rewrite (filter_cons (fun p => glob_match_json p = true)).
  rewrite (filter_cons (fun p => glob_match_json p && stale cutoff w p = true)).
  destruct (glob_match_json p) eqn:Hg.
  - rewrite decide_True by done. rewrite filter_cons. cbn [andb].
    by rewrite IH.
  - rewrite decide_False by done. cbn [andb].
    rewrite decide_False by done. exact IH.
Qed.

Lemma analyze_missing_file an p t w :
  w_files w !! p = None ->
  analyze_data_with an p t w = (w, error_result ("Data file not found: " +:+ p)).
Proof.
  intros H. unfold analyze_data_with, path_exists. by rewrite H.
Qed.

Lemma glob_json_ctx_log level msg w : glob_json (ctx_log level msg w) = glob_json w.
Proof. reflexivity. Qed.

(** C2.  When no deletion fails, [cleanup_cache] with the parameter
    [older_than_hours] deletes exactly the artifacts of the cache whose
    last modification is strictly older than [now - older_than_hours *
    3600] seconds: every other file is kept as it is; it returns the number
    of artifacts deleted; and analysing a deleted handle afterwards answers
    that the data file is not found. *)
Theorem cleanup_cache_evicts older_than_hours clk w :
  let cutoff := (now_ts clk - inject_Z (older_than_hours * 3600))%Q in
  (forall p, evicted cutoff w p = true -> is_denied p w = false) ->
  exists w' deleted_count,
    fst (cleanup_cache older_than_hours clk w) = w'
    /\ dict_get (snd (cleanup_cache older_than_hours clk w)) "deleted_count"
       = Some (RVal (VInt deleted_count))
    /\ dict_get (snd (cleanup_cache older_than_hours clk w)) "error" = None
    /\ deleted_count
       = Z.of_nat (length (filter (fun p => evicted cutoff w p = true)
                             (map_to_list (w_files w)).*1))
    /\ (forall p,
          w_files w' !! p = if evicted cutoff w p then None else w_files w !! p)
    /\ (forall p an analysis_type,
          evicted cutoff w p = true ->
          snd (analyze_data_with an p analysis_type w')
          = error_result ("Data file not found: " +:+ p)).
Proof.
  intros cutoff Hok.
  destruct (cleanup_loop_ok cutoff (glob_json w) 0 w (NoDup_glob_json w))
    as (w1 & Hloop & Hden & Hlog & Hfiles).
  { intros p Hp. by apply elem_of_glob_json in Hp as [_ Hp]. }
  { intros p Hp Hs. apply Hok. unfold evicted.
    apply elem_of_glob_json in Hp as [-> _]. done. }
  assert (Hfiles' : forall p,
            w_files w1 !! p = if evicted cutoff w p then None else w_files w !! p).
  { intros p. rewrite Hfiles. unfold evicted.
    destruct (stale cutoff w p) eqn:Hs; [|by rewrite !andb_false_r].
    rewrite !andb_true_r.
    destruct (glob_match_json p) eqn:Hg.
    - rewrite bool_decide_eq_true_2; [done|].
      apply elem_of_glob_json. split; [done|].
      unfold stale in Hs. by destruct (w_files w !! p).
    - rewrite bool_decide_eq_false_2; [done|].
      rewrite elem_of_glob_json. intros [? _]. congruence. }
  unfold cleanup_cache. fold cutoff. unfold cutoff_of. fold cutoff.
  rewrite Hloop. cbn [fst snd].
  eexists. eexists. split; [reflexivity|].
  split; [reflexivity|]. split; [reflexivity|].
  split; [by rewrite Z.add_0_l, filter_evicted|].
  split; [exact Hfiles'|].
  intros p an t Hev. rewrite analyze_missing_file; [done|].
  cbn [ctx_info ctx_log w_files]. by rewrite Hfiles', Hev.
Qed.

Lemma cleanup_cache_evicts_witness :
  exists w' deleted_count,
    fst (cleanup_cache 24 demo_clock (demo_world ∅)) = w'
    /\ dict_get (snd (cleanup_cache 24 demo_clock (demo_world ∅))) "deleted_count"
       = Some (RVal (VInt deleted_count))
    /\ dict_get (snd (cleanup_cache 24 demo_clock (demo_world ∅))) "error" = None
    /\ deleted_count = 2
    /\ w_files w' !! "datadog_cache/events_1000_bbbbbbbb.json" = None
    /\ w_files w' !! "datadog_cache/users_90000_cccccccc.json" = Some new_file.
Proof.
  destruct (cleanup_cache_evicts 24 demo_clock (demo_world ∅))
    as (w' & n & Hw & Hn & Herr & Hcount & Hfiles & _).
  - intros p _. reflexivity.
  - exists w', n. split; [exact Hw|]. split; [exact Hn|]. split; [exact Herr|].
    split; [exact Hcount|].
    split; [exact (Hfiles "datadog_cache/events_1000_bbbbbbbb.json")
           |exact (Hfiles "datadog_cache/users_90000_cccccccc.json")].
Defined.

(** C8, as stated, fails: the first artifact the scan meets cannot be
    deleted, the call returns the error result and the stale artifact
    listed after it is still there. *)
Lemma cleanup_failure_counterexample :
  let w := demo_world {["datadog_cache/metrics_1000_aaaaaaaa.json"]} in
  glob_json w = ["datadog_cache/metrics_1000_aaaaaaaa.json";
                 "datadog_cache/users_90000_cccccccc.json";
                 "datadog_cache/events_1000_bbbbbbbb.json"]
  /\ evicted (cutoff_of demo_clock 24) w "datadog_cache/events_1000_bbbbbbbb.json" = true
  /\ is_denied "datadog_cache/events_1000_bbbbbbbb.json" w = false
  /\ snd (cleanup_cache 24 demo_clock w)
     = error_result "Failed to cleanup cache: OSError"
  /\ w_files (fst (cleanup_cache 24 demo_clock w))
       !! "datadog_cache/events_1000_bbbbbbbb.json" = Some old_file.
Proof. cbv zeta. repeat split; vm_compute; reflexivity. Qed.

(** C8, as amended.  A deletion that fails ends the scan: the stale
    artifacts listed before the failing one are deleted, every other file
    is kept, and the call returns the error result "Failed to cleanup
    cache". *)
Theorem cleanup_cache_stops_at_failure older_than_hours clk w pre p post :
  let cutoff := (now_ts clk - inject_Z (older_than_hours * 3600))%Q in
  glob_json w = pre ++ p :: post ->
  (forall q, q ∈ pre -> stale cutoff w q = true -> is_denied q w = false) ->
  stale cutoff w p = true ->
  is_denied p w = true ->
  snd (cleanup_cache older_than_hours clk w)
  = error_result "Failed to cleanup cache: OSError"
  /\ forall q,
       w_files (fst (cleanup_cache older_than_hours clk w)) !! q
       = if bool_decide (q ∈ pre) && stale cutoff w q then None
         else w_files w !! q.
Proof.
  intros cutoff Hglob Hpre Hp Hden.
  pose proof (NoDup_glob_json w) as Hnd. rewrite Hglob in Hnd.
  apply NoDup_app in Hnd as (Hnd_pre & Hdisj & _).
  destruct (cleanup_loop_ok cutoff pre 0 w Hnd_pre)
    as (w1 & Hloop & Hden1 & Hlog1 & Hfiles); [|done|].
  { intros q Hq. apply (elem_of_glob_json w q). rewrite Hglob.
    apply elem_of_app. by left. }
  assert (Hp1 : w_files w1 !! p = w_files w !! p).
  { rewrite Hfiles. rewrite bool_decide_eq_false_2; [done|].
    intros Hin. apply (Hdisj p Hin). left. }
  unfold cleanup_cache, cutoff_of. fold cutoff.
  rewrite Hglob, cleanup_loop_app, Hloop.
  cbn [cleanup_loop]. unfold fs_mtime, fs_unlink, is_denied.
  rewrite Hp1, Hden1.
  unfold stale in Hp. destruct (w_files w !! p) as [f|]; [|done].
  rewrite Hp. fold (is_denied p w). rewrite Hden.
  split; [reflexivity|]. intros q. cbn [fst ctx_error ctx_log w_files].
  apply Hfiles.
Qed.

Lemma cleanup_cache_stops_at_failure_witness :
  snd (cleanup_cache 24 demo_clock
         (demo_world {["datadog_cache/events_1000_bbbbbbbb.json"]}))
  = error_result "Failed to cleanup cache: OSError"
  /\ w_files (fst (cleanup_cache 24 demo_clock
                     (demo_world {["datadog_cache/events_1000_bbbbbbbb.json"]})))
       !! "datadog_cache/metrics_1000_aaaaaaaa.json" = None.
Proof.
  destruct (cleanup_cache_stops_at_failure 24 demo_clock
              (demo_world {["datadog_cache/events_1000_bbbbbbbb.json"]})
              ["datadog_cache/metrics_1000_aaaaaaaa.json";
               "datadog_cache/users_90000_cccccccc.json"]
              "datadog_cache/events_1000_bbbbbbbb.json" [])
    as [Herr Hfiles].
  - vm_compute. reflexivity.
  - intros q Hq _.
    apply elem_of_cons in Hq as [->|Hq]; [reflexivity|].
    apply elem_of_cons in Hq as [->|Hq]; [reflexivity|].
    by apply elem_of_nil in Hq.
  - vm_compute. reflexivity.
  - vm_compute. reflexivity.
  - split; [exact Herr|].
    exact (Hfiles "datadog_cache/metrics_1000_aaaaaaaa.json").
Defined.

(** ** Unknown analysis types *)

Lemma dispatch_unknown an analysis_type data :
  known_type analysis_type = false -> dispatch an analysis_type data = Ok None.
Proof.
  unfold known_type, dispatch. intros H.
  apply orb_false_iff in H as [H H3]. apply orb_false_iff in H as [H1 H2].
  by rewrite H1, H2, H3.
Qed.

(** C7, as stated, fails: for a handle that does not resolve, an unknown
    mode is answered by the not-found error, and for a stored text that is
    not JSON by the analysis-failed error, not by the error of the unknown
    analysis type. *)
Lemma unknown_mode_counterexample :
  known_type "bogus" = false
  /\ snd (analyze_data "datadog_cache/gone.json" "bogus" demo_clock (demo_world ∅))
     = error_result "Data file not found: datadog_cache/gone.json"
  /\ snd (analyze_data "datadog_cache/gone.json" "bogus" demo_clock (demo_world ∅))
     <> error_result "Unknown analysis type: bogus"
  /\ snd (analyze_data "notes.txt" "bogus" demo_clock
            (set_files (<["notes.txt" := {| f_mtime := 0; f_content := "to do" |}]> ∅)
               (demo_world ∅)))
     = error_result "Analysis failed: JSONDecodeError".
Proof. repeat split; try (vm_compute; reflexivity). discriminate. Qed.

(** C7, as amended.  For a mode outside "summary", "stats" and "trends" no
    analyzer is invoked (the outcome is the same whatever the analyzers
    are) and the outcome is an error result: the error of the unknown
    analysis type when the handle resolves to a file whose text is JSON,
    the not-found error when the handle does not resolve, the
    analysis-failed error when the text does not decode. *)
Theorem unknown_mode_is_error an filepath analysis_type w :
  known_type analysis_type = false ->
  (forall an', analyze_data_with an' filepath analysis_type w
               = analyze_data_with an filepath analysis_type w)
  /\ (forall data,
        path_exists filepath w = true ->
        load_data filepath w = Ok data ->
        analyze_data_with an filepath analysis_type w
        = (w, error_result ("Unknown analysis type: " +:+ analysis_type)))
  /\ (path_exists filepath w = false ->
      analyze_data_with an filepath analysis_type w
      = (w, error_result ("Data file not found: " +:+ filepath)))
  /\ (forall e,
        path_exists filepath w = true ->
        load_data filepath w = Raise e ->
        analyze_data_with an filepath analysis_type w
        = (ctx_error ("Analysis failed: " +:+ str_exn e) w,
           error_result ("Analysis failed: " +:+ str_exn e)))
  /\ exists msg, snd (analyze_data_with an filepath analysis_type w) = error_result msg.
Proof.
  intros Hun.
  assert (Hshape : forall an0,
    analyze_data_with an0 filepath analysis_type w
    = if negb (path_exists filepath w)
      then (w, error_result ("Data file not found: " +:+ filepath))
      else match load_data filepath w with
           | Ok _ => (w, error_result ("Unknown analysis type: " +:+ analysis_type))
           | Raise e => (ctx_error ("Analysis failed: " +:+ str_exn e) w,
                         error_result ("Analysis failed: " +:+ str_exn e))
           end).
  { intros an0. unfold analyze_data_with.
    destruct (path_exists filepath w); [|done]. cbn [negb].
    destruct (load_data filepath w) as [data|e]; cbn [rbind]; [|done].
    by rewrite dispatch_unknown. }
  split; [intros an'; by rewrite !Hshape|].
  split; [intros data Hex Hload; by rewrite Hshape, Hex, Hload|].
  split; [intros Hex; by rewrite Hshape, Hex|].
  split; [intros e Hex Hload; by rewrite Hshape, Hex, Hload|].
  rewrite Hshape. destruct (path_exists filepath w); cbn [negb]; [|by eexists].
  destruct (load_data filepath w); by eexists.
Qed.

Lemma unknown_mode_is_error_witness :
  analyze_data_with (the_analyzers demo_clock)
    "datadog_cache/users_90000_cccccccc.json" "bogus" (demo_world ∅)
  = (demo_world ∅, error_result "Unknown analysis type: bogus").
Proof.
  apply (proj1 (proj2 (unknown_mode_is_error (the_analyzers demo_clock)
                         "datadog_cache/users_90000_cccccccc.json" "bogus"
                         (demo_world ∅) eq_refl))
           (VDict [])).
  - reflexivity.
  - vm_compute. reflexivity.
Defined.

(** ** The JSON codec reads back what it writes *)

Module JsonFacts.
Import Json.
Local Open Scope char_scope.

(** *** White space *)

Lemma skip_ws_newline_indent level (t : text) :
  skip_ws (newline_indent level ++ t) = skip_ws t.
Proof.
  unfold newline_indent. cbn [app skip_ws is_ws].
  induction (2 * level)%nat as [|n IH]; [done|]. exact IH.
Qed.

Lemma skip_ws_starts_value t : starts_value t -> skip_ws t = t.
Proof.
  destruct t as [|c t]; [done|]. cbn [starts_value skip_ws].
  destruct c as [[] [] [] [] [] [] [] []]; try discriminate; reflexivity.
Qed.

(** *** Strings *)

Lemma scanstring_escape_char c (t : text) :
  scanstring (escape_char c ++ t)
  = let* (u, r) := scanstring t in Ok (String c u, r).
Proof.
  destruct c as [[] [] [] [] [] [] [] []]; reflexivity.
Qed.

Lemma scanstring_escape_body s (rest : text) :
  scanstring (escape_body s ++ "034" :: rest) = Ok (s, rest).
Proof.
  induction s as [|c s IH]; [done|].
  cbn [escape_body]. rewrite <- app_assoc, scanstring_escape_char.
  by rewrite IH.
Qed.

Lemma encode_string_unfold s (rest : text) :
  encode_string s ++ rest = "034" :: escape_body s ++ "034" :: rest.
Proof.
  unfold encode_string. cbn [app]. by rewrite <- app_assoc.
Qed.

(** *** Integers *)

Lemma scan_digits_uint u rest :
  starts_with_digit rest = false ->
  scan_digits (uint_text u ++ rest) = (u, rest).
Proof.
  intros Hrest. unfold uint_text.
  induction u as [|u IH|u IH|u IH|u IH|u IH|u IH|u IH|u IH|u IH|u IH];
    cbn [NilEmpty.string_of_uint list_ascii_of_string app scan_digits digit_of];
    rewrite ?IH; try reflexivity.
  destruct rest as [|c rest]; [done|].
  cbn [starts_with_digit] in Hrest. unfold is_digit in Hrest.
  cbn [scan_digits]. by destruct (digit_of c).
Qed.

Lemma to_uint_not_D0 p d : Pos.to_uint p <> Decimal.D0 d.
Proof.
  intros H.
  pose proof (DecimalPos.Unsigned.to_of (Pos.to_uint p)) as Hnorm.
  rewrite DecimalPos.Unsigned.of_to in Hnorm. cbn [N.to_uint] in Hnorm.
  rewrite H, DecimalFacts.unorm_D0 in Hnorm.
  assert (Hcases : Decimal.nzhead d = Decimal.Nil \/ Decimal.nzhead d <> Decimal.Nil)
    by (destruct (Decimal.nzhead d); [by left|by right..]).
  destruct Hcases as [Hd|Hd].
  - assert (Hz : Decimal.unorm d = Decimal.zero) by (by apply DecimalFacts.unorm_0).
    rewrite Hz in Hnorm.
    apply (DecimalPos.Unsigned.to_uint_nonzero p). by rewrite H.
  - rewrite DecimalFacts.unorm_nzhead in Hnorm by done.
    by apply (DecimalFacts.nzhead_nonzero d d).
Qed.

(** The digits of a positive number: at least one, the first not 0. *)
Lemma to_uint_head p :
  exists c t,
    uint_text (Pos.to_uint p) = c :: t
    /\ is_digit c = true /\ Ascii.eqb c "0" = false /\ Ascii.eqb c "-" = false.
Proof.
  unfold uint_text.
  destruct (Pos.to_uint p) as [|u|u|u|u|u|u|u|u|u|u] eqn:H;
    [by apply DecimalPos.Unsigned.to_uint_nonnil in H
    |by apply to_uint_not_D0 in H|..];
    cbn [NilEmpty.string_of_uint list_ascii_of_string];
    eexists; eexists; (split; [reflexivity|]); repeat split; reflexivity.
Qed.

Lemma string_of_to_uint p :
  NilZero.string_of_uint (Pos.to_uint p) = NilEmpty.string_of_uint (Pos.to_uint p).
Proof.
  unfold NilZero.string_of_uint.
  destruct (Pos.to_uint p) eqn:H; try reflexivity.
  by apply DecimalPos.Unsigned.to_uint_nonnil in H.
Qed.

Lemma scan_unsigned p rest :
  starts_with_digit rest = false ->
  exists c t,
    uint_text (Pos.to_uint p) = c :: t
    /\ is_digit c = true /\ Ascii.eqb c "0" = false /\ Ascii.eqb c "-" = false
    /\ scan_digits (c :: t ++ rest) = (Pos.to_uint p, rest).
Proof.
  intros Hrest. destruct (to_uint_head p) as (c & t & Ht & Hd & H0 & Hm).
  exists c, t. repeat split; try done.
  change (c :: t ++ rest) with ((c :: t) ++ rest). rewrite <- Ht.
  by apply scan_digits_uint.
Qed.

Lemma digit_head_cases c (t : text) (A : Type) (a b : A) :
  Ascii.eqb c "-" = false ->
  match c :: t with
  | "-" :: s' => a
  | _ => b
  end = b.
Proof.
  destruct c as [[] [] [] [] [] [] [] []]; try discriminate; reflexivity.
Qed.

Lemma scan_integer_encode z rest :
  starts_with_digit rest = false ->
  scan_integer (encode_int z ++ rest) = Some (Z.to_int z, rest).
Proof.
  intros Hrest. unfold encode_int, py_str_int.
  destruct z as [|p|p]; [reflexivity| |];
    cbn [Z.to_int NilZero.string_of_int]; rewrite string_of_to_uint;
    destruct (scan_unsigned p rest Hrest) as (c & t & Ht & Hd & H0 & Hm & Hscan);
    fold (uint_text (Pos.to_uint p)).
  - rewrite Ht. cbn [app]. unfold scan_integer.
    destruct c as [[] [] [] [] [] [] [] []]; try discriminate;
      cbn [Ascii.eqb Bool.eqb is_digit digit_of]; cbv iota beta;
      rewrite Hscan; reflexivity.
  - cbn [list_ascii_of_string app]. fold (uint_text (Pos.to_uint p)).
    rewrite Ht. cbn [app]. unfold scan_integer. cbv iota beta.
    rewrite H0, Hd, Hscan. reflexivity.
Qed.

Lemma delimited_no_digit rest : delimited rest -> starts_with_digit rest = false.
Proof. destruct rest as [|c rest]; [done|]. by intros [-> | ->]. Qed.

Lemma delimited_no_float rest : delimited rest -> float_tail rest = false.
Proof. destruct rest as [|c rest]; [done|]. by intros [-> | ->]. Qed.

Lemma encode_int_head z :
  exists c t, encode_int z = c :: t /\ (is_digit c = true \/ c = "-").
Proof.
  unfold encode_int, py_str_int. destruct z as [|p|p].
  - exists "0", []. by split; [|left].
  - cbn [Z.to_int NilZero.string_of_int]. rewrite string_of_to_uint.
    destruct (to_uint_head p) as (c & t & Ht & Hd & _).
    exists c, t. split; [exact Ht|by left].
  - cbn [Z.to_int NilZero.string_of_int list_ascii_of_string]. eauto.
Qed.

Lemma scan_once_number fuel c (t : text) :
  is_digit c = true \/ c = "-" ->
  scan_once (S fuel) (c :: t) = scan_number (c :: t).
Proof.
  intros [H| ->]; [|reflexivity].
  destruct c as [[] [] [] [] [] [] [] []]; try discriminate; reflexivity.
Qed.

Lemma scan_once_int fuel z rest :
  delimited rest ->
  scan_once (S fuel) (encode_int z ++ rest) = Ok (VInt z, rest).
Proof.
  intros Hrest. destruct (encode_int_head z) as (c & t & Hz & Hc).
  pose proof (scan_integer_encode z rest (delimited_no_digit _ Hrest)) as Hscan.
  rewrite Hz in *. cbn [app] in *. rewrite scan_once_number by done.
  unfold scan_number. rewrite Hscan, delimited_no_float by done.
  by rewrite DecimalZ.of_to.
Qed.

(** *** Containers *)

Lemma osize_pos x : (1 <= osize x)%nat.
Proof. destruct x; simpl; lia. Qed.

Lemma encode_starts_value level x rest : starts_value (encode level x ++ rest).
Proof.
  destruct x as [|[]|z|s|l|l|d|s]; try reflexivity.
  - destruct (encode_int_head z) as (c & t & Hz & [Hc| ->]);
      cbn [encode]; rewrite Hz; cbn [app starts_value]; [|done].
    unfold value_start. by rewrite Hc.
  - by destruct l.
  - by destruct l.
  - by destruct d.
Qed.

Lemma scan_once_array fuel (r : text) c t :
  skip_ws r = c :: t ->
  value_start c = true ->
  scan_once (S fuel) ("[" :: r)
  = let* (values, r') := scan_array (scan_once fuel) fuel (c :: t) in
    Ok (VList values, r').
Proof.
  intros Hskip Hc. cbn [scan_once Ascii.eqb Bool.eqb]. cbv iota beta.
  rewrite Hskip.
  destruct c as [[] [] [] [] [] [] [] []]; try discriminate; reflexivity.
Qed.

Lemma scan_array_items scan level items : forall fuel rest,
  items <> [] ->
  (length items <= fuel)%nat ->
  Forall (reads_back scan level) items ->
  exists c t,
    skip_ws (join_items level (map (encode (S level)) items) ++ "]" :: rest)
    = c :: t
    /\ value_start c = true
    /\ scan_array scan fuel (c :: t) = Ok (map canonical items, rest).
Proof.
  induction items as [|x items IH]; intros fuel rest Hne Hlen Hall; [done|].
  apply Forall_cons in Hall as [Hx Hall].
  destruct fuel as [|fuel]; [simpl in Hlen; lia|].
  pose proof (encode_starts_value (S level) x) as Hstart.
  destruct items as [|y items].
  - cbn [map join_items]. rewrite <- !app_assoc, skip_ws_newline_indent.
    rewrite skip_ws_starts_value by apply Hstart.
    specialize (Hstart (newline_indent level ++ "]" :: rest)).
    destruct (encode (S level) x ++ newline_indent level ++ "]" :: rest)
      as [|c t] eqn:Htext; [done|].
    exists c, t. split; [done|]. split; [exact Hstart|].
    cbn [scan_array]. rewrite <- Htext, Hx by (by right).
    cbn [rbind]. by rewrite skip_ws_newline_indent.
  - change (join_items level (map (encode (S level)) (x :: y :: items)))
      with (newline_indent (S level) ++ encode (S level) x
            ++ "," :: join_items level (map (encode (S level)) (y :: items))).
    rewrite <- !app_assoc, skip_ws_newline_indent.
    rewrite skip_ws_starts_value by apply Hstart.
    cbn [app].
    specialize (Hstart ("," :: join_items level (map (encode (S level)) (y :: items))
                        ++ "]" :: rest)).
    destruct (encode (S level) x
              ++ "," :: join_items level (map (encode (S level)) (y :: items))
              ++ "]" :: rest) as [|c t] eqn:Htext; [done|].
    exists c, t. split; [done|]. split; [exact Hstart|].
    cbn [scan_array]. rewrite <- Htext, Hx by (by left).
    cbn [rbind skip_ws is_ws].
    destruct (IH fuel rest) as (c' & t' & Hskip & _ & Hscan);
      [done|simpl in *; lia|done|].
    rewrite Hskip, Hscan. reflexivity.
Qed.

Lemma scan_object_items scan level d : forall fuel rest,
  d <> [] ->
  (length d <= fuel)%nat ->
  Forall (fun kv => reads_back scan level (snd kv)) d ->
  exists t,
    skip_ws (join_items level (map (encode_pair level) d) ++ "}" :: rest)
    = "034" :: t
    /\ scan_object scan fuel t = Ok (map canonical_pair d, rest).
Proof.
  induction d as [|[k x] d IH]; intros fuel rest Hne Hlen Hall; [done|].
  apply Forall_cons in Hall as [Hx Hall]. cbn [snd] in Hx.
  destruct fuel as [|fuel]; [simpl in Hlen; lia|].
  pose proof (encode_starts_value (S level) x) as Hstart.
  destruct d as [|kv d].
  - cbn [map join_items]. rewrite <- !app_assoc, skip_ws_newline_indent.
    unfold encode_pair at 1. cbn [fst snd].
    rewrite <- !app_assoc, encode_string_unfold.
    cbn [skip_ws is_ws]. eexists. split; [reflexivity|].
    cbn [scan_object]. rewrite scanstring_escape_body.
    cbn [rbind app skip_ws is_ws].
    rewrite skip_ws_starts_value by apply Hstart.
    rewrite Hx by (by right).
    cbn [rbind]. by rewrite skip_ws_newline_indent.
  - change (join_items level (map (encode_pair level) ((k, x) :: kv :: d)))
      with (newline_indent (S level) ++ encode_pair level (k, x)
            ++ "," :: join_items level (map (encode_pair level) (kv :: d))).
    rewrite <- !app_assoc, skip_ws_newline_indent.
    unfold encode_pair at 1. cbn [fst snd].
    rewrite <- !app_assoc, encode_string_unfold.
    cbn [skip_ws is_ws]. eexists. split; [reflexivity|].
    cbn [scan_object]. rewrite scanstring_escape_body.
    cbn [rbind app skip_ws is_ws].
    rewrite skip_ws_starts_value by apply Hstart.
    rewrite Hx by (by left).
    cbn [rbind skip_ws is_ws].
    destruct (IH fuel rest) as (t' & Hskip & Hscan);
      [done|simpl in *; lia|done|].
    rewrite Hskip, Hscan. reflexivity.
Qed.

Lemma list_sum_bounds {A} (l : list A) (f : A -> nat) n :
  (forall x, 1 <= f x)%nat ->
  (list_sum (map f l) <= n)%nat ->
  (length l <= n)%nat /\ Forall (fun x => (f x <= n)%nat) l.
Proof.
  intros Hf. revert n. induction l as [|x l IH]; intros n H; [split; [simpl; lia|done]|].
  simpl in H. specialize (Hf x) as Hx.
  destruct (IH (n - f x)%nat) as [Hlen Hall]; [lia|].
  split; [simpl; lia|]. constructor; [lia|].
  eapply Forall_impl; [exact Hall|]. intros y Hy. cbn in Hy. lia.
Qed.

Lemma scan_once_list fuel level l rest :
  (list_sum (map osize l) <= fuel)%nat ->
  (forall x level rest, (osize x <= fuel)%nat -> delimited rest ->
     scan_once fuel (encode level x ++ rest) = Ok (canonical x, rest)) ->
  scan_once (S fuel)
    (match l with
     | [] => ["["; "]"]
     | _ => "[" :: join_items level (map (encode (S level)) l) ++ ["]"]
     end ++ rest)
  = Ok (VList (map canonical l), rest).
Proof.
  intros Hsize IH. destruct l as [|x l]; [reflexivity|].
  destruct (list_sum_bounds (x :: l) osize fuel osize_pos Hsize) as [Hlen Hall].
  destruct (scan_array_items (scan_once fuel) level (x :: l) fuel rest)
    as (c & t & Hskip & Hc & Hscan); [done|done| |].
  { eapply Forall_impl; [exact Hall|]. intros y Hy rest' Hrest. by apply IH. }
  cbn [app]. rewrite <- app_assoc. cbn [app].
  rewrite (scan_once_array fuel _ c t Hskip Hc). by rewrite Hscan.
Qed.

(** Every payload reads back as its canonical value, whatever follows it
    in a container. *)
Lemma scan_once_encode fuel : forall x level rest,
  (osize x <= fuel)%nat ->
  delimited rest ->
  scan_once fuel (encode level x ++ rest) = Ok (canonical x, rest).
Proof.
  induction fuel as [|fuel IH]; intros x level rest Hsize Hrest.
  { pose proof (osize_pos x). lia. }
  destruct x as [|[]|z|s|l|l|d|s]; try reflexivity.
  - by apply scan_once_int.
  - cbn [encode canonical]. rewrite encode_string_unfold.
    cbn [scan_once Ascii.eqb Bool.eqb]. cbv iota beta.
    by rewrite scanstring_escape_body.
  - cbn [encode canonical]. apply scan_once_list; [|exact IH].
    cbn [osize] in Hsize. lia.
  - cbn [encode canonical]. apply scan_once_list; [|exact IH].
    cbn [osize] in Hsize. lia.
  - cbn [encode canonical]. destruct d as [|kv d]; [reflexivity|].
    cbn [osize] in Hsize.
    assert (Hsum : (list_sum (map (fun kv => osize (snd kv)) (kv :: d)) <= fuel)%nat) by lia.
    assert (Hlen : (length (kv :: d) <= fuel)%nat
                   /\ Forall (fun kv => (osize (snd kv) <= fuel)%nat) (kv :: d)).
    { apply list_sum_bounds; [|done]. intros y. apply osize_pos. }
    destruct Hlen as [Hlen Hall].
    destruct (scan_object_items (scan_once fuel) level (kv :: d) fuel rest)
      as (t & Hskip & Hscan); [done|done| |].
    { eapply Forall_impl; [exact Hall|]. intros y Hy rest' Hrest'. by apply IH. }
    cbn [app]. rewrite <- app_assoc. cbn [app].
    cbn [scan_once Ascii.eqb Bool.eqb]. cbv iota beta.
    fold (encode_pair level).
    change (map (fun kv0 => encode_string (key_str (fst kv0))
                            ++ ":" :: " " :: encode (S level) (snd kv0)))
      with (map (encode_pair level)).
    rewrite Hskip, Hscan. reflexivity.
  - cbn [encode canonical]. rewrite encode_string_unfold.
    cbn [scan_once Ascii.eqb Bool.eqb]. cbv iota beta.
    by rewrite scanstring_escape_body.
Qed.

(** *** The whole text *)

Lemma join_items_length level (items : list text) :
  (list_sum (map (@length ascii) items) <= length (join_items level items))%nat.
Proof.
  induction items as [|i [|j items] IH].
  - simpl. lia.
  - cbn [join_items map list_sum fold_right]. rewrite !length_app. lia.
  - change (join_items level (i :: j :: items))
      with (newline_indent (S level) ++ i ++ "," :: join_items level (j :: items)).
    change (list_sum (map (@length ascii) (i :: j :: items)))
      with (length i + list_sum (map (@length ascii) (j :: items)))%nat.
    rewrite !length_app. cbn [length]. lia.
Qed.

Lemma list_sum_le {A} (f g : A -> nat) (l : list A) :
  Forall (fun x => (f x <= g x)%nat) l ->
  (list_sum (map f l) <= list_sum (map g l))%nat.
Proof.
  induction 1 as [|x l Hx _ IH]; [done|]. simpl. lia.
Qed.

Lemma osize_le_length n : forall x level,
  (osize x <= n)%nat -> (osize x <= length (encode level x))%nat.
Proof.
  induction n as [|n IH]; intros x level Hn.
  { pose proof (osize_pos x). lia. }
  assert (Hlist : forall l level,
            (list_sum (map osize l) <= n)%nat ->
            (list_sum (map osize l)
             <= length (join_items level (map (encode (S level)) l)))%nat).
  { intros l lvl Hl. etrans; [|apply join_items_length].
    rewrite map_map. apply list_sum_le.
    destruct (list_sum_bounds l osize n osize_pos Hl) as [_ Hall].
    eapply Forall_impl; [exact Hall|]. intros y Hy. by apply IH. }
  destruct x as [|[]|z|s|l|l|d|s]; cbn [osize encode] in *;
    try (simpl; lia).
  - destruct (encode_int_head z) as (c & t & -> & _). simpl. lia.
  - destruct l as [|x l]; [simpl; lia|].
    cbn [length]. rewrite length_app. specialize (Hlist (x :: l) level). lia.
  - destruct l as [|x l]; [simpl; lia|].
    cbn [length]. rewrite length_app. specialize (Hlist (x :: l) level). lia.
  - destruct d as [|kv d]; [simpl; lia|].
    cbn [length]. rewrite length_app.
    assert (Hd : (list_sum (map (fun kv => osize (snd kv)) (kv :: d))
                  <= length (join_items level
                               (map (fun kv => encode_string (key_str (fst kv))
                                               ++ ":" :: " " :: encode (S level) (snd kv))
                                  (kv :: d))))%nat).
    { etrans; [|apply join_items_length].
      rewrite map_map. apply list_sum_le.
      destruct (list_sum_bounds (kv :: d) (fun kv => osize (snd kv)) n) as [_ Hall];
        [intros y; apply osize_pos|lia|].
      eapply Forall_impl; [exact Hall|]. intros y Hy. cbn in Hy |- *.
      rewrite length_app. cbn [length].
      specialize (IH (snd y) (S level) Hy). lia. }
    lia.
Qed.

Lemma decode_encode x : decode (encode 0 x) = Ok (canonical x).
Proof.
  unfold decode.
  pose proof (encode_starts_value 0 x []) as Hstart. rewrite app_nil_r in Hstart.
  rewrite skip_ws_starts_value by done.
  rewrite <- (app_nil_r (encode 0 x)) at 2.
  rewrite scan_once_encode; [done| |done].
  pose proof (osize_le_length (osize x) x 0). lia.
Qed.

Lemma loads_dumps x : loads (dumps x) = Ok (canonical x).
Proof.
  unfold loads, dumps.
  rewrite list_ascii_of_string_of_list_ascii. apply decode_encode.
Qed.

(** *** JSON-native payloads *)

Lemma pyval_ind' (P : pyval -> Prop) :
  P VNone -> (forall b, P (VBool b)) -> (forall z, P (VInt z)) ->
  (forall s, P (VStr s)) ->
  (forall l, Forall P l -> P (VList l)) ->
  (forall d, Forall (fun kv => P (snd kv)) d -> P (VDict d)) ->
  forall v, P v.
Proof.
  intros Hnone Hbool Hint Hstr Hlist Hdict.
  refine (fix IH (v : pyval) : P v :=
            match v with
            | VNone => Hnone
            | VBool b => Hbool b
            | VInt z => Hint z
            | VStr s => Hstr s
            | VList l =>
                Hlist l ((fix go (l : list pyval) : Forall P l :=
                            match l with
                            | [] => List.Forall_nil P
                            | x :: l' => @List.Forall_cons _ P x l' (IH x) (go l')
                            end) l)
            | VDict d =>
                Hdict d ((fix go (d : list (string * pyval))
                            : Forall (fun kv => P (snd kv)) d :=
                            match d with
                            | [] => List.Forall_nil (fun kv => P (snd kv))
                            | kv :: d' =>
                                @List.Forall_cons _ (fun kv => P (snd kv)) kv d'
                                  (IH (snd kv)) (go d')
                            end) d)
            end).
Qed.

Lemma dict_set_fresh {A} (d : list (string * A)) k v :
  k ∉ map fst d -> dict_set d k v = d ++ [(k, v)].
Proof.
  induction d as [|[k' v'] d IH]; intros Hk; [done|].
  cbn [map fst] in Hk. apply not_elem_of_cons in Hk as [Hne Hk].
  cbn [dict_set app]. destruct (String.eqb_spec k' k) as [->|_]; [done|].
  by rewrite IH.
Qed.

Lemma dict_of_pairs_acc {A} (l acc : list (string * A)) :
  NoDup (map fst (acc ++ l)) ->
  fold_left (fun d kv => dict_set d (fst kv) (snd kv)) l acc = acc ++ l.
Proof.
  revert acc. induction l as [|[k v] l IH]; intros acc Hnd.
  - by rewrite app_nil_r.
  - cbn [fold_left fst snd]. rewrite dict_set_fresh.
    + rewrite IH; rewrite <- app_assoc; done.
    + rewrite map_app in Hnd. apply NoDup_app in Hnd as (_ & Hdisj & _).
      intros Hin. apply (Hdisj k Hin). left.
Qed.

Lemma dict_of_pairs_unique {A} (l : list (string * A)) :
  NoDup (map fst l) -> dict_of_pairs l = l.
Proof. intros H. unfold dict_of_pairs. by rewrite dict_of_pairs_acc. Qed.

(** A JSON value with unique keys is its own canonical value. *)
Lemma canonical_of_pyval v :
  unique_keys v = true -> canonical (of_pyval v) = v.
Proof.
  induction v as [|b|z|s|l IH|d IH] using pyval_ind'; try done.
  - cbn [unique_keys of_pyval canonical]. intros Hu. f_equal.
    rewrite map_map. induction IH as [|x l Hx _ IHl]; [done|].
    cbn [forallb] in Hu. apply andb_true_iff in Hu as [Hux Hul].
    cbn [map]. by rewrite Hx, IHl.
  - cbn [unique_keys of_pyval canonical]. intros Hu.
    apply andb_true_iff in Hu as [Hnd Hu]. apply bool_decide_eq_true in Hnd.
    f_equal. rewrite map_map. cbn [fst snd key_str].
    assert (Hmap : map (fun x => (fst x, canonical (of_pyval (snd x)))) d = d).
    { clear Hnd. induction IH as [|[k x] d Hx _ IHd]; [done|].
      cbn [forallb snd] in Hu. apply andb_true_iff in Hu as [Hux Hud].
      cbn [map fst snd] in *. by rewrite Hx, IHd. }
    rewrite Hmap. by apply dict_of_pairs_unique.
Qed.
End JsonFacts.

(** ** Storing, then loading *)

Lemma store_data_writes data prefix clk uuid4 w :
  is_denied (store_path prefix clk uuid4) w = false ->
  _store_data data prefix clk uuid4 w
  = (set_files (<[store_path prefix clk uuid4 :=
                    {| f_mtime := now_ts clk; f_content := Json.dumps data |}]>
                  (w_files w)) w,
     Ok (store_path prefix clk uuid4)).
Proof.
  intros H. unfold _store_data, fs_write. by rewrite H.
Qed.

Lemma store_data_denied data prefix clk uuid4 w :
  is_denied (store_path prefix clk uuid4) w = true ->
  _store_data data prefix clk uuid4 w = (w, Raise OSError).
Proof.
  intros H. unfold _store_data, fs_write. by rewrite H.
Qed.



(** * Further properties of the cache *)

(** ** What an eviction scan keeps *)

Lemma cleanup_loop_keeps cutoff paths : forall n w p f,
  w_files w !! p = Some f ->
  (p ∈ paths -> stale cutoff w p = false) ->
  w_files (fst (cleanup_loop cutoff paths n w)) !! p = Some f.
Proof.
  induction paths as [|q paths IH]; intros n w p f Hp Hfresh; [done|].
  cbn [cleanup_loop]. unfold fs_mtime.
  destruct (w_files w !! q) as [g|] eqn:Hq; [|done].
  assert (Htail : p ∈ paths -> stale cutoff w p = false)
    by (intros Hin; apply Hfresh; by right).
  destruct (Qltb (f_mtime g) cutoff) eqn:Hlt; [|by apply IH].
  unfold fs_unlink. destruct (is_denied q w); [done|]. rewrite Hq.
  assert (Hne : q <> p).
  { intros ->. specialize (Hfresh ltac:(left)).
    unfold stale in Hfresh. rewrite Hq in Hfresh. congruence. }
  apply IH.
  - cbn [w_files set_files]. by rewrite lookup_delete_ne.
  - intros Hin. rewrite stale_set_files_delete by done. by apply Htail.
Qed.

Lemma cleanup_loop_only_deletes cutoff paths : forall n w p f,
  w_files (fst (cleanup_loop cutoff paths n w)) !! p = Some f ->
  w_files w !! p = Some f.
Proof.
  induction paths as [|q paths IH]; intros n w p f; [done|].
  cbn [cleanup_loop]. unfold fs_mtime.
  destruct (w_files w !! q) as [g|] eqn:Hq; [|done].
  destruct (Qltb (f_mtime g) cutoff); [|apply IH].
  unfold fs_unlink. destruct (is_denied q w); [done|]. rewrite Hq.
  intros H. apply IH in H. cbn [w_files set_files] in H.
  destruct (decide (q = p)) as [->|Hne].
  - by rewrite lookup_delete_eq in H.
  - by rewrite lookup_delete_ne in H.
Qed.

Lemma cleanup_cache_files older_than_hours clk w :
  w_files (fst (cleanup_cache older_than_hours clk w))
  = w_files (fst (cleanup_loop (cutoff_of clk older_than_hours) (glob_json w) 0 w)).
Proof.
  unfold cleanup_cache.
  by destruct (cleanup_loop (cutoff_of clk older_than_hours) (glob_json w) 0 w)
    as [w' [n|e]].
Qed.

Lemma cleanup_cache_kept older_than_hours clk w p f :
  w_files w !! p = Some f ->
  evicted (cutoff_of clk older_than_hours) w p = false ->
  w_files (fst (cleanup_cache older_than_hours clk w)) !! p = Some f.
Proof.
  rewrite cleanup_cache_files. intros Hp Hev.
  apply cleanup_loop_keeps; [done|].
  intros Hin. apply elem_of_glob_json in Hin as [Hg _].
  unfold evicted in Hev. by rewrite Hg in Hev.
Qed.

(** X1.  Whether the scan succeeds or stops at a failing deletion,
    [cleanup_cache] creates and alters no file, and it keeps every file
    that is not a stale artifact of the cache: files outside the cache
    directory, files whose name does not end in ".json", and artifacts
    modified at or after the cutoff. *)
Theorem cleanup_cache_keeps older_than_hours clk w p f :
  (w_files (fst (cleanup_cache older_than_hours clk w)) !! p = Some f ->
   w_files w !! p = Some f)
  /\ (w_files w !! p = Some f ->
      evicted (cutoff_of clk older_than_hours) w p = false ->
      w_files (fst (cleanup_cache older_than_hours clk w)) !! p = Some f).
Proof.
  split; [|apply cleanup_cache_kept].
  rewrite cleanup_cache_files. apply cleanup_loop_only_deletes.
Qed.

Lemma cleanup_cache_keeps_witness :
  w_files (fst (cleanup_cache 24 demo_clock
                  (demo_world {["datadog_cache/events_1000_bbbbbbbb.json"]})))
    !! "notes.txt" = Some old_file.
Proof.
  apply (cleanup_cache_keeps 24 demo_clock
           (demo_world {["datadog_cache/events_1000_bbbbbbbb.json"]})
           "notes.txt" old_file).
  - vm_compute. reflexivity.
  - vm_compute. reflexivity.
Defined.

(** ** A second scan, a longer age *)

(** The outcome of a scan in which no deletion fails. *)
Lemma cleanup_cache_ok older_than_hours clk w :
  (forall p, evicted (cutoff_of clk older_than_hours) w p = true ->
             is_denied p w = false) ->
  exists w1 n,
    cleanup_cache older_than_hours clk w
    = (ctx_info ("Cleaned up " +:+ py_str_int n +:+ " files older than "
                 +:+ py_str_int older_than_hours +:+ " hours") w1,
       [("summary", str_val ("Cleaned up " +:+ py_str_int n
                             +:+ " files older than "
                             +:+ py_str_int older_than_hours +:+ " hours"));
        ("deleted_count", RVal (VInt n));
        ("cache_directory", str_val DATA_DIR)])
    /\ n = Z.of_nat (length (filter (fun p => evicted (cutoff_of clk older_than_hours) w p = true)
                               (map_to_list (w_files w)).*1))
    /\ w_denied w1 = w_denied w
    /\ forall p,
         w_files w1 !! p
         = if evicted (cutoff_of clk older_than_hours) w p then None
           else w_files w !! p.
Proof.
  intros Hok. set (cutoff := cutoff_of clk older_than_hours) in *.
  destruct (cleanup_loop_ok cutoff (glob_json w) 0 w (NoDup_glob_json w))
    as (w1 & Hloop & Hden & Hlog & Hfiles).
  { intros p Hp. by apply elem_of_glob_json in Hp as [_ Hp]. }
  { intros p Hp Hs. apply Hok. unfold evicted.
    apply elem_of_glob_json in Hp as [-> _]. done. }
  exists w1. eexists. unfold cleanup_cache. fold cutoff. rewrite Hloop.
  split; [reflexivity|]. split; [by rewrite Z.add_0_l, filter_evicted|].
  split; [done|].
  intros p. rewrite Hfiles. unfold evicted.
  destruct (stale cutoff w p) eqn:Hs; [|by rewrite !andb_false_r].
  rewrite !andb_true_r.
  destruct (glob_match_json p) eqn:Hg.
  - rewrite bool_decide_eq_true_2; [done|].
    apply elem_of_glob_json. split; [done|].
    unfold stale in Hs. by destruct (w_files w !! p).
  - rewrite bool_decide_eq_false_2; [done|].
    rewrite elem_of_glob_json. intros [? _]. congruence.
Qed.

Lemma filter_none {A} (P : A -> Prop) `{forall x, Decision (P x)} (l : list A) :
  (forall x, x ∈ l -> ~ P x) -> filter P l = [].
Proof.
  induction l as [|x l IH]; intros Hno; [done|].
  rewrite filter_cons_False by (apply Hno; left).
  apply IH. intros y Hy. apply Hno. by right.
Qed.

(** X2.  When no deletion fails, a second [cleanup_cache] with the same
    age and clock finds nothing to delete: it returns [deleted_count] 0 and
    leaves the files as the first call left them. *)
Theorem cleanup_cache_twice older_than_hours clk w :
  (forall p, evicted (cutoff_of clk older_than_hours) w p = true ->
             is_denied p w = false) ->
  dict_get (snd (cleanup_cache older_than_hours clk
                   (fst (cleanup_cache older_than_hours clk w))))
    "deleted_count" = Some (RVal (VInt 0))
  /\ w_files (fst (cleanup_cache older_than_hours clk
                     (fst (cleanup_cache older_than_hours clk w))))
     = w_files (fst (cleanup_cache older_than_hours clk w)).
Proof.
  intros Hok. set (cutoff := cutoff_of clk older_than_hours) in *.
  destruct (cleanup_cache_ok older_than_hours clk w Hok)
    as (w1 & n & Hrun & _ & Hden & Hfiles).
  fold cutoff in Hrun, Hfiles. rewrite Hrun. cbn [fst].
  set (w2 := ctx_info _ w1).
  assert (Hnone : forall p, evicted cutoff w2 p = false).
  { intros p. unfold evicted, stale. subst w2. cbn [ctx_info ctx_log w_files].
    rewrite Hfiles. destruct (evicted cutoff w p) eqn:Hev.
    - by rewrite andb_false_r.
    - exact Hev. }
  destruct (cleanup_cache_ok older_than_hours clk w2)
    as (w3 & m & Hrun2 & Hm & _ & Hfiles2).
  { intros p Hp. fold cutoff in Hp. by rewrite Hnone in Hp. }
  fold cutoff in Hrun2, Hm, Hfiles2. rewrite Hrun2. cbn [fst snd].
  rewrite filter_none in Hm.
  2:{ intros p _. by rewrite Hnone. }
  subst m. split; [reflexivity|].
  apply map_eq. intros p. cbn [ctx_info ctx_log w_files].
  by rewrite Hfiles2, Hnone.
Qed.

Lemma cleanup_cache_twice_witness :
  dict_get (snd (cleanup_cache 24 demo_clock
                   (fst (cleanup_cache 24 demo_clock (demo_world ∅)))))
    "deleted_count" = Some (RVal (VInt 0)).
Proof.
  apply (cleanup_cache_twice 24 demo_clock (demo_world ∅)).
  intros p _. reflexivity.
Defined.

Lemma cutoff_of_mono clk n n' :
  n <= n' -> (cutoff_of clk n' <= cutoff_of clk n)%Q.
Proof.
  intros H. unfold cutoff_of.
  apply Qplus_le_r, Qopp_le_compat. rewrite <- Zle_Qle. lia.
Qed.

Lemma evicted_mono clk n n' w p :
  n <= n' ->
  evicted (cutoff_of clk n') w p = true -> evicted (cutoff_of clk n) w p = true.
Proof.
  intros H. unfold evicted, stale.
  destruct (glob_match_json p); [|done]. cbn [andb].
  destruct (w_files w !! p) as [f|]; [|done].
  rewrite !Qltb_lt. intros Hlt.
  eapply Qlt_le_trans; [exact Hlt|]. by apply cutoff_of_mono.
Qed.

(** X3.  A longer age evicts less: when no deletion fails, every file that
    survives [cleanup_cache] with [n] hours survives it with [n' >= n]
    hours. *)
Theorem cleanup_cache_longer_age_keeps_more clk n n' w p f :
  n <= n' ->
  (forall q, evicted (cutoff_of clk n) w q = true -> is_denied q w = false) ->
  w_files (fst (cleanup_cache n clk w)) !! p = Some f ->
  w_files (fst (cleanup_cache n' clk w)) !! p = Some f.
Proof.
  intros Hle Hok.
  destruct (cleanup_cache_ok n clk w Hok) as (w1 & k & Hrun & _ & _ & Hfiles).
  destruct (cleanup_cache_ok n' clk w) as (w1' & k' & Hrun' & _ & _ & Hfiles').
  { intros q Hq. apply Hok. by eapply evicted_mono. }
  rewrite Hrun, Hrun'. cbn [fst ctx_info ctx_log w_files].
  rewrite Hfiles, Hfiles'.
  destruct (evicted (cutoff_of clk n) w p) eqn:Hev; [done|].
  destruct (evicted (cutoff_of clk n') w p) eqn:Hev'; [|done].
  apply (evicted_mono clk n n') in Hev'; [congruence|done].
Qed.

Lemma cleanup_cache_longer_age_keeps_more_witness :
  w_files (fst (cleanup_cache 48 demo_clock (demo_world ∅)))
    !! "datadog_cache/users_90000_cccccccc.json" = Some new_file.
Proof.
  apply (cleanup_cache_longer_age_keeps_more demo_clock 24 48 (demo_world ∅)).
  - lia.
  - intros q _. reflexivity.
  - vm_compute. reflexivity.
Defined.

(** X4.  An artifact is never evicted before its time: after [_store_data]
    returned a handle at the instant [now_ts clk], a [cleanup_cache] whose
    cutoff is not later than that instant keeps the artifact, whatever
    else the scan does, and the handle still loads as the canonical value
    of the payload. *)
Theorem fresh_artifact_survives data prefix clk uuid4 w w1 filepath
    older_than_hours clk' :
  _store_data data prefix clk uuid4 w = (w1, Ok filepath) ->
  (cutoff_of clk' older_than_hours <= now_ts clk)%Q ->
  path_exists filepath (fst (cleanup_cache older_than_hours clk' w1)) = true
  /\ load_data filepath (fst (cleanup_cache older_than_hours clk' w1))
     = Ok (Json.canonical data).
Proof.
  intros Hstore Hcut.
  destruct (is_denied (store_path prefix clk uuid4) w) eqn:Hden.
  { rewrite store_data_denied in Hstore by done. discriminate Hstore. }
  rewrite store_data_writes in Hstore by done. injection Hstore as <- <-.
  set (f := {| f_mtime := now_ts clk; f_content := Json.dumps data |}).
  set (w1 := set_files _ w).
  assert (Hkept : w_files (fst (cleanup_cache older_than_hours clk' w1))
                    !! store_path prefix clk uuid4 = Some f).
  { apply cleanup_cache_kept.
    - subst w1. cbn [w_files set_files]. by rewrite lookup_insert_eq.
    - unfold evicted, stale. subst w1. cbn [w_files set_files].
      rewrite lookup_insert_eq. cbn [f_mtime f].
      apply andb_false_intro2. apply not_true_is_false. rewrite Qltb_lt.
      by apply Qle_not_lt. }
  unfold path_exists, load_data, fs_read. rewrite Hkept. cbn [rbind f f_content].
  split; [done|]. apply JsonFacts.loads_dumps.
Qed.

Lemma fresh_artifact_survives_witness :
  load_data "datadog_cache/events_90000_1b9d6bcd.json"
    (fst (cleanup_cache 0 demo_clock
            (fst (_store_data demo_payload "events" demo_clock
                    "1b9d6bcd-bbfd-4b2d-9b5d-ab8dfbbd4bed" (demo_world ∅)))))
  = Ok (Json.canonical demo_payload).
Proof.
  apply (fresh_artifact_survives demo_payload "events" demo_clock
           "1b9d6bcd-bbfd-4b2d-9b5d-ab8dfbbd4bed" (demo_world ∅)
           (fst (_store_data demo_payload "events" demo_clock
                   "1b9d6bcd-bbfd-4b2d-9b5d-ab8dfbbd4bed" (demo_world ∅)))
           "datadog_cache/events_90000_1b9d6bcd.json" 0 demo_clock).
  - vm_compute. reflexivity.
  - vm_compute. discriminate.
Defined.

(** * Further properties of the analyzers *)

Lemma sum_point_counts_view ss pls acc :
  Forall2 series_view ss pls ->
  sum_point_counts acc ss = Ok (acc + point_count pls).
Proof.
  intros H. revert acc.
  induction H as [|s pl ss pls Hs _ IH]; intros acc.
  - cbn. apply (f_equal Ok). unfold point_count. cbn. lia.
  - cbn [sum_point_counts].
    destruct Hs as [sd pl Hpl|sd Hpl]; unfold py_get; rewrite Hpl; cbn [rbind py_len].
    + rewrite IH. apply (f_equal Ok). unfold point_count, list_sum_Z.
      cbn [map fold_right]. rewrite length_map. lia.
    + rewrite IH. apply (f_equal Ok). unfold point_count, list_sum_Z.
      cbn [map fold_right length]. lia.
Qed.

Lemma summary_of_series d ss pls :
  dict_get d "series" = Some (VList ss) ->
  Forall2 series_view ss pls ->
  _generate_summary (VDict d)
  = Ok (let summary :=
          dict_set
            (dict_set (dict_set summary_init "data_type" (RVal (VStr "metrics")))
               "record_count" (RVal (VInt (Z.of_nat (length ss)))))
            "total_data_points" (RVal (VInt (point_count pls))) in
        if 1000 <? point_count pls
        then append_insight summary "Large dataset - consider aggregation"
        else summary).
Proof.
  intros Hd Hv. unfold _generate_summary, py_in, dict_has, py_getitem_key.
  rewrite Hd. cbn [rbind py_len py_iter].
  rewrite (sum_point_counts_view ss pls 0 Hv), Z.add_0_l. cbn [rbind].
  by destruct (1000 <? point_count pls).
Qed.

(** X5.  On a metrics artifact the summary counts every point of every
    series, the null ones included, and the insight on a large dataset
    appears exactly when that count exceeds 1000. *)
Theorem summary_counts_every_point d ss pls :
  dict_get d "series" = Some (VList ss) ->
  Forall2 series_view ss pls ->
  _generate_summary (VDict d)
  = Ok [("data_type", str_val "metrics");
        ("record_count", RVal (VInt (Z.of_nat (length pls))));
        ("key_insights",
         RVal (VList (if 1000 <? point_count pls
                      then [VStr "Large dataset - consider aggregation"]
                      else [])));
        ("total_data_points", RVal (VInt (point_count pls)))].
Proof.
  intros Hd Hv. rewrite (summary_of_series d ss pls Hd Hv).
  rewrite (Forall2_length _ _ _ Hv).
  by destruct (1000 <? point_count pls).
Qed.

Lemma summary_counts_every_point_witness :
  let pl : list point := repeat (VInt 0, None) 1001 in
  _generate_summary
    (VDict [("series", VList [VDict [("pointlist", VList (map pv_point pl))]])])
  = Ok [("data_type", str_val "metrics");
        ("record_count", RVal (VInt 1));
        ("key_insights", RVal (VList [VStr "Large dataset - consider aggregation"]));
        ("total_data_points", RVal (VInt 1001))].
Proof.
  intros pl.
  apply (summary_counts_every_point
           [("series", VList [VDict [("pointlist", VList (map pv_point pl))]])]
           [VDict [("pointlist", VList (map pv_point pl))]] [pl]).
  - reflexivity.
  - constructor; [|constructor]. constructor. reflexivity.
Defined.

Lemma non_null_length (pl : list point) :
  Z.of_nat (length (non_null pl))
  + Z.of_nat (length (filter (fun p => is_null p = true) pl))
  = Z.of_nat (length pl).
Proof.
  induction pl as [|[t [z|]] pl IH]; [done| |].
  - rewrite filter_cons_False by (unfold is_null; cbn; congruence).
    change (non_null ((t, Some z) :: pl)) with (z :: non_null pl).
    cbn [length]. lia.
  - rewrite filter_cons_True by done.
    change (non_null ((t, None) :: pl)) with (non_null pl).
    cbn [length]. lia.
Qed.

Lemma flat_values_length pls :
  Z.of_nat (length (flat_values pls)) + null_count pls = point_count pls.
Proof.
  unfold flat_values, null_count, point_count, list_sum_Z.
  induction pls as [|pl pls IH]; [done|].
  cbn [map concat fold_right]. rewrite filter_app, !length_app.
  pose proof (non_null_length pl). lia.
Qed.

(** X6.  The summary and the statistics count differently: on a metrics
    artifact [total_data_points] of the summary is the number of points,
    while [total_points] of the statistics is that number less the null
    points; the statistics carry no count exactly when every point is
    null. *)
Theorem stats_count_excludes_nulls now d ss pls :
  dict_get d "series" = Some (VList ss) ->
  Forall2 series_view ss pls ->
  exists summary stats,
    _generate_summary (VDict d) = Ok summary
    /\ _calculate_stats now (VDict d) = Ok stats
    /\ dict_get summary "total_data_points" = Some (RVal (VInt (point_count pls)))
    /\ dict_get stats "total_points"
       = if point_count pls =? null_count pls then None
         else Some (RVal (VInt (point_count pls - null_count pls))).
Proof.
  intros Hd Hv.
  destruct (calculate_stats_view now (VDict d) pls) as [Hstats _].
  { by eapply av_series. }
  rewrite Hstats, (summary_of_series d ss pls Hd Hv).
  eexists _, _. split; [reflexivity|]. split; [reflexivity|].
  split; [by destruct (1000 <? point_count pls)|].
  pose proof (flat_values_length pls) as Hlen.
  destruct (flat_values pls) as [|z zs] eqn:Hz.
  - cbn [length] in Hlen. rewrite (proj2 (Z.eqb_eq _ _)) by lia. reflexivity.
  - rewrite (proj2 (Z.eqb_neq _ _)) by (cbn [length] in Hlen; lia).
    unfold stats_spec. cbn [dict_get String.eqb Ascii.eqb Bool.eqb].
    do 3 f_equal. lia.
Qed.

Lemma stats_count_excludes_nulls_witness :
  exists summary stats,
    _generate_summary stats_scenario = Ok summary
    /\ _calculate_stats "t" stats_scenario = Ok stats
    /\ dict_get summary "total_data_points" = Some (RVal (VInt 5))
    /\ dict_get stats "total_points" = Some (RVal (VInt 4)).
Proof.
  apply (stats_count_excludes_nulls "t"
           [("series",
             VList [VDict [("pointlist",
                            VList [VList [VInt 1; VInt 10]; VList [VInt 2; VInt 20]])];
                    VDict [("pointlist",
                            VList [VList [VInt 1; VInt 30]; VList [VInt 2; VNone];
                                   VList [VInt 3; VInt 40]])]])]
           [VDict [("pointlist",
                    VList (map pv_point [(VInt 1, Some 10); (VInt 2, Some 20)]))];
            VDict [("pointlist",
                    VList (map pv_point [(VInt 1, Some 30); (VInt 2, None);
                                         (VInt 3, Some 40)]))]]
           [[(VInt 1, Some 10); (VInt 2, Some 20)];
            [(VInt 1, Some 30); (VInt 2, None); (VInt 3, Some 40)]]).
  - reflexivity.
  - repeat constructor.
Defined.

Lemma count_alerting_dicts ms : forall acc,
  Forall (fun m => is_dict m = true) ms ->
  count_alerting acc ms = Ok (acc + alerting_count_of ms).
Proof.
  unfold alerting_count_of.
  induction ms as [|m ms IH]; intros acc Hms.
  - cbn. apply (f_equal Ok). lia.
  - apply Forall_cons in Hms as [Hm Hms]. destruct m as [| | | | |d]; try discriminate Hm.
    cbn [count_alerting py_get].
    destruct (dict_get d "overall_state") as [st|] eqn:Hst; cbn [rbind].
    + rewrite IH by done. apply (f_equal Ok).
      destruct (py_eq_str st "Alert") eqn:Hal.
      * rewrite filter_cons_True by (cbn; by rewrite Hst). cbn [length]. lia.
      * rewrite filter_cons_False by (cbn; rewrite Hst; congruence). lia.
    + rewrite IH by done. apply (f_equal Ok).
      rewrite filter_cons_False by (cbn; rewrite Hst; congruence).
      cbn [py_eq_str]. lia.
Qed.


Lemma no_series_among_dicts ms :
  Forall (fun m => is_dict m = true) ms ->
  existsb (fun v => py_eq_str v "series") ms = false.
Proof.
  induction 1 as [|m ms Hm _ IH]; [done|].
  cbn [existsb]. rewrite IH. by destruct m.
Qed.

Lemma summary_of_monitors d0 ms :
  dict_has d0 "overall_state" = true ->
  Forall (fun m => is_dict m = true) ms ->
  _generate_summary (VList (VDict d0 :: ms))
  = Ok [("data_type", str_val "monitors");
        ("record_count", RVal (VInt (Z.of_nat (length (VDict d0 :: ms)))));
        ("key_insights",
         RVal (VList (if 0 <? alerting_count_of (VDict d0 :: ms)
                      then [VStr (py_str_int (alerting_count_of (VDict d0 :: ms))
                                  +:+ " monitors currently alerting")]
                      else [])));
        ("alerting_monitors", RVal (VInt (alerting_count_of (VDict d0 :: ms))))].
Proof.
  intros Hst Hms.
  assert (Hall : Forall (fun m => is_dict m = true) (VDict d0 :: ms))
    by (by constructor).
  unfold _generate_summary, py_in. rewrite (no_series_among_dicts _ Hall).
  cbn [rbind is_list py_truthy andb py_getitem_idx]. rewrite list_index_head.
  cbn [rbind]. rewrite Hst. cbn [py_len rbind py_iter].
  rewrite (count_alerting_dicts _ 0 Hall), Z.add_0_l. cbn [rbind].
  by destruct (0 <? alerting_count_of (VDict d0 :: ms)).
Qed.



(** ** The direction of a trend in integers *)





(** ** Statistics and the order of the points *)









(** * The life of an artifact: handles, collisions, eviction *)

Lemma append_nil (s : string) : "" +:+ s = s.
Proof. reflexivity. Qed.

Lemma append_cons c (a s : string) : String c a +:+ s = String c (a +:+ s).
Proof. reflexivity. Qed.

Lemma strip_prefix_app p s : strip_prefix p (p +:+ s) = Some s.
Proof.
  induction p as [|c p IH]; [done|].
  rewrite append_cons. cbn [strip_prefix]. by rewrite Ascii.eqb_refl.
Qed.

Lemma is_substring_slash_app a b :
  is_substring "/" (a +:+ b) = is_substring "/" a || is_substring "/" b.
Proof.
  induction a as [|c a IH].
  - by rewrite append_nil.
  - rewrite append_cons. cbn [is_substring String.prefix]. rewrite IH.
    destruct (ascii_dec "/" c); cbn [orb]; [|done].
    by destruct (a +:+ b), a.
Qed.

Lemma no_slash_in_uint u : is_substring "/" (NilEmpty.string_of_uint u) = false.
Proof.
  induction u; cbn [NilEmpty.string_of_uint]; [done|..];
    rewrite <- (append_nil (NilEmpty.string_of_uint u)), <- append_cons;
    rewrite is_substring_slash_app, IHu; reflexivity.
Qed.

Lemma no_slash_in_int z : is_substring "/" (py_str_int z) = false.
Proof.
  unfold py_str_int, NilZero.string_of_int, NilZero.string_of_uint.
  destruct (Z.to_int z) as [u|u].
  - destruct u; [done|..]; apply no_slash_in_uint.
  - destruct u; [done|..];
      rewrite <- (append_nil (NilEmpty.string_of_uint _)), <- append_cons;
      rewrite is_substring_slash_app, no_slash_in_uint; reflexivity.
Qed.

Lemma substring_all s : substring 0 (String.length s) s = s.
Proof. induction s as [|c s IH]; [done|]. cbn. by rewrite IH. Qed.

Lemma substring_skip x s k :
  substring (String.length x) k (x +:+ s) = substring 0 k s.
Proof. induction x as [|c x IH]; [done|]. rewrite append_cons. exact IH. Qed.

Lemma length_app_string x s :
  String.length (x +:+ s) = (String.length x + String.length s)%nat.
Proof.
  induction x as [|c x IH]; [done|]. rewrite append_cons. cbn. by rewrite IH.
Qed.

Lemma ends_with_app x suffix : ends_with suffix (x +:+ suffix) = true.
Proof.
  unfold ends_with. rewrite length_app_string.
  replace (String.length x + String.length suffix - String.length suffix)%nat
    with (String.length x) by lia.
  rewrite substring_skip, substring_all, String.eqb_refl, andb_true_r.
  apply Nat.leb_le. lia.
Qed.

Lemma append_assoc_string (a b c : string) : (a +:+ b) +:+ c = a +:+ (b +:+ c).
Proof. induction a as [|x a IH]; [done|]. by rewrite !append_cons, IH. Qed.

(** The artifacts [_store_data] writes are those the eviction scan lists,
    as long as neither the prefix nor the unique id holds a slash. *)
Lemma store_path_globbed prefix clk uuid4 :
  is_substring "/" prefix = false ->
  is_substring "/" (substring 0 8 uuid4) = false ->
  glob_match_json (store_path prefix clk uuid4) = true.
Proof.
  intros Hp Hu. unfold glob_match_json, store_path, path_in_data_dir.
  rewrite <- append_assoc_string, strip_prefix_app.
  rewrite !is_substring_slash_app, Hp, Hu, no_slash_in_int. cbn [orb negb andb].
  rewrite <- !append_assoc_string. apply ends_with_app.
Qed.

(** X10.  Every artifact is evicted in the end: when the prefix and the
    unique id hold no slash (the prefixes of the tools are such constants,
    and a uuid has none), an artifact stored at the instant [now_ts clk] is
    removed by a [cleanup_cache] whose cutoff lies after that instant and
    in which no deletion fails; [analyze_data] then answers that the file
    is not found. *)
Theorem stored_artifact_is_evicted data prefix clk uuid4 w w1 filepath
    older_than_hours clk' :
  is_substring "/" prefix = false ->
  is_substring "/" (substring 0 8 uuid4) = false ->
  _store_data data prefix clk uuid4 w = (w1, Ok filepath) ->
  (now_ts clk < cutoff_of clk' older_than_hours)%Q ->
  (forall p, evicted (cutoff_of clk' older_than_hours) w1 p = true ->
             is_denied p w1 = false) ->
  path_exists filepath (fst (cleanup_cache older_than_hours clk' w1)) = false
  /\ forall analysis_type clk'',
       snd (analyze_data filepath analysis_type clk''
              (fst (cleanup_cache older_than_hours clk' w1)))
       = error_result ("Data file not found: " +:+ filepath).
Proof.
  intros Hp Hu Hstore Hcut Hok.
  destruct (is_denied (store_path prefix clk uuid4) w) eqn:Hden.
  { rewrite store_data_denied in Hstore by done. discriminate Hstore. }
  rewrite store_data_writes in Hstore by done. injection Hstore as <- <-.
  set (w1 := set_files _ w) in *.
  destruct (cleanup_cache_ok older_than_hours clk' w1 Hok)
    as (w2 & n & Hrun & _ & _ & Hfiles).
  assert (Hgone : w_files (fst (cleanup_cache older_than_hours clk' w1))
                    !! store_path prefix clk uuid4 = None).
  { rewrite Hrun. cbn [fst ctx_info ctx_log w_files]. rewrite Hfiles.
    unfold evicted, stale. rewrite store_path_globbed by done.
    subst w1. cbn [set_files w_files]. rewrite lookup_insert_eq. cbn [f_mtime andb].
    by rewrite (proj2 (Qltb_lt _ _) Hcut). }
  split.
  - unfold path_exists. by rewrite Hgone.
  - intros analysis_type clk''. unfold analyze_data.
    by rewrite analyze_missing_file.
Qed.

Lemma stored_artifact_is_evicted_witness :
  path_exists "datadog_cache/events_1000_1b9d6bcd.json"
    (fst (cleanup_cache 24 demo_clock
            (fst (_store_data demo_payload "events"
                    {| now_ts := 1000 # 1; now_iso := "then" |}
                    "1b9d6bcd-bbfd-4b2d-9b5d-ab8dfbbd4bed" (demo_world ∅)))))
  = false.
Proof.
  apply (stored_artifact_is_evicted demo_payload "events"
           {| now_ts := 1000 # 1; now_iso := "then" |}
           "1b9d6bcd-bbfd-4b2d-9b5d-ab8dfbbd4bed" (demo_world ∅)
           (fst (_store_data demo_payload "events"
                   {| now_ts := 1000 # 1; now_iso := "then" |}
                   "1b9d6bcd-bbfd-4b2d-9b5d-ab8dfbbd4bed" (demo_world ∅)))
           "datadog_cache/events_1000_1b9d6bcd.json" 24 demo_clock).
  - reflexivity.
  - reflexivity.
  - vm_compute. reflexivity.
  - reflexivity.
  - intros p _. reflexivity.
Defined.

(** ** Two stores *)

Lemma append_inj_l (a x y : string) : a +:+ x = a +:+ y -> x = y.
Proof.
  induction a as [|c a IH]; [done|]. rewrite !append_cons. intros [=]. by apply IH.
Qed.

Lemma append_inj_r (b : string) : forall x y : string,
  x +:+ b = y +:+ b -> x = y.
Proof.
  intros x y H.
  assert (Hlen : String.length x = String.length y).
  { apply (f_equal String.length) in H. rewrite !length_app_string in H. lia. }
  revert y H Hlen. induction x as [|c x IH]; intros [|c' y] H Hlen;
    try discriminate Hlen; [done|].
  rewrite !append_cons in H. injection H as -> H. f_equal. apply IH; [done|].
  cbn in Hlen. lia.
Qed.

Lemma store_path_inj prefix clk clk' u u' :
  py_int_of_float (now_ts clk) = py_int_of_float (now_ts clk') ->
  store_path prefix clk u = store_path prefix clk' u' ->
  substring 0 8 u = substring 0 8 u'.
Proof.
  unfold store_path, path_in_data_dir. intros -> H.
  do 6 apply append_inj_l in H. by apply append_inj_r in H.
Qed.

(** X11.  Two stores, the second on the world the first left.  The second
    handle loads the second payload.  The first handle still loads the
    first payload when the handles differ, and with the same prefix and
    the same second they differ exactly when the first eight characters of
    the two uuids differ; when these coincide the second store replaces
    the first artifact without a fault. *)
Theorem store_twice d1 d2 prefix clk1 clk2 u1 u2 w w1 w2 h1 h2 :
  _store_data d1 prefix clk1 u1 w = (w1, Ok h1) ->
  _store_data d2 prefix clk2 u2 w1 = (w2, Ok h2) ->
  py_int_of_float (now_ts clk1) = py_int_of_float (now_ts clk2) ->
  load_data h2 w2 = Ok (Json.canonical d2)
  /\ (h1 = h2 <-> substring 0 8 u1 = substring 0 8 u2)
  /\ load_data h1 w2 = Ok (Json.canonical (if decide (h1 = h2) then d2 else d1)).
Proof.
  intros H1 H2 Hts.
  destruct (is_denied (store_path prefix clk1 u1) w) eqn:Hden1.
  { rewrite store_data_denied in H1 by done. discriminate H1. }
  rewrite store_data_writes in H1 by done. injection H1 as <- <-.
  destruct (is_denied (store_path prefix clk2 u2)
              (set_files (<[store_path prefix clk1 u1 :=
                              {| f_mtime := now_ts clk1; f_content := Json.dumps d1 |}]>
                            (w_files w)) w)) eqn:Hden2.
  { rewrite store_data_denied in H2 by done. discriminate H2. }
  rewrite store_data_writes in H2 by done. injection H2 as <- <-.
  unfold load_data, fs_read. cbn [set_files w_files].
  split; [|split].
  - rewrite lookup_insert_eq. cbn [rbind f_content]. apply JsonFacts.loads_dumps.
  - split; [by apply store_path_inj|].
    intros Hu. unfold store_path. by rewrite Hts, Hu.
  - destruct (decide (store_path prefix clk1 u1 = store_path prefix clk2 u2))
      as [->|Hne].
    + rewrite lookup_insert_eq. cbn [rbind f_content]. apply JsonFacts.loads_dumps.
    + rewrite lookup_insert_ne, lookup_insert_eq by done.
      cbn [rbind f_content]. apply JsonFacts.loads_dumps.
Qed.

Lemma store_twice_witness :
  let w1 := fst (_store_data (OInt 1) "events" demo_clock
                   "1b9d6bcd-bbfd-4b2d-9b5d-ab8dfbbd4bed" (demo_world ∅)) in
  let w2 := fst (_store_data (OInt 2) "events" demo_clock
                   "1b9d6bcd-0000-4000-8000-000000000000" w1) in
  load_data "datadog_cache/events_90000_1b9d6bcd.json" w2 = Ok (VInt 2).
Proof.
  intros w1 w2.
  destruct (store_twice (OInt 1) (OInt 2) "events" demo_clock demo_clock
              "1b9d6bcd-bbfd-4b2d-9b5d-ab8dfbbd4bed"
              "1b9d6bcd-0000-4000-8000-000000000000"
              (demo_world ∅) w1 w2
              "datadog_cache/events_90000_1b9d6bcd.json"
              "datadog_cache/events_90000_1b9d6bcd.json")
    as (H & _ & _).
  - vm_compute. reflexivity.
  - vm_compute. reflexivity.
  - reflexivity.
  - exact H.
Defined.

(** * The tools that fetch and store *)

Lemma load_stored data path mtime fs w :
  Json.unique_keys data = true ->
  load_data path
    (set_files (<[path := {| f_mtime := mtime;
                             f_content := Json.dumps (Json.of_pyval data) |}]> fs) w)
  = Ok data.
Proof.
  intros Hu. unfold load_data, fs_read. cbn [set_files w_files].
  rewrite lookup_insert_eq. cbn [rbind f_content].
  by rewrite JsonFacts.loads_dumps, JsonFacts.canonical_of_pyval.
Qed.

Lemma analyze_stored an path analysis_type mtime data fs w msg :
  Json.unique_keys data = true ->
  analyze_data_with an path analysis_type
    (ctx_info msg
       (set_files (<[path := {| f_mtime := mtime;
                                f_content := Json.dumps (Json.of_pyval data) |}]> fs) w))
  = respond path analysis_type
      (ctx_info msg
         (set_files (<[path := {| f_mtime := mtime;
                                  f_content := Json.dumps (Json.of_pyval data) |}]> fs) w))
      (dispatch an analysis_type data).
Proof.
  intros Hu. unfold analyze_data_with, path_exists.
  cbn [ctx_info ctx_log set_files w_files]. rewrite lookup_insert_eq. cbn [negb].
  f_equal.
  change (load_data path _)
    with (load_data path
            (set_files (<[path := {| f_mtime := mtime;
                                     f_content := Json.dumps (Json.of_pyval data) |}]> fs) w)).
  by rewrite load_stored.
Qed.

(** X12.  The counts [get_metrics] reports are those the Summary analysis
    of the stored artifact reports: when the response is an object with
    the key "series" and the tool answers with a handle, [analyze_data] on
    that handle with "summary" gives [record_count] equal to
    [series_count] and [total_data_points] equal to [data_points]. *)
Theorem get_metrics_agrees_with_summary query from_timestamp to_timestamp
    d clk uuid4 w w' r :
  Json.unique_keys (VDict d) = true ->
  dict_has d "series" = true ->
  get_metrics query from_timestamp to_timestamp (Ok (VDict d)) clk uuid4 w = (w', r) ->
  dict_get r "error" = None ->
  exists filepath n t,
    dict_get r "filepath" = Some (str_val filepath)
    /\ dict_get r "series_count" = Some (RVal (VInt n))
    /\ dict_get r "data_points" = Some (RVal (VInt t))
    /\ forall clk', exists summary,
         snd (analyze_data filepath "summary" clk' w')
         = [("analysis_type", str_val "summary");
            ("filepath", str_val filepath);
            ("result", RDict summary)]
         /\ dict_get summary "record_count" = Some (RVal (VInt n))
         /\ dict_get summary "total_data_points" = Some (RVal (VInt t)).
Proof.
  intros Hu Hs Hrun Hok.
  unfold get_metrics, try_except, tbind, tlift, tinfo, tret in Hrun.
  destruct (is_denied (store_path "metrics" clk uuid4) w) eqn:Hden.
  { rewrite store_data_denied in Hrun by done.
    injection Hrun as <- <-. discriminate Hok. }
  rewrite store_data_writes in Hrun by done.
  unfold dict_has in Hs. unfold metrics_counts, py_get in Hrun.
  destruct (dict_get d "series") as [series|] eqn:Hd; [|discriminate Hs].
  cbn [rbind] in Hrun.
  destruct (py_len series) as [n|e] eqn:Hn; cbn [rbind] in Hrun;
    [|injection Hrun as <- <-; discriminate Hok].
  destruct (py_iter series) as [ss|e] eqn:Hss; cbn [rbind] in Hrun;
    [|injection Hrun as <- <-; discriminate Hok].
  destruct (sum_point_counts 0 ss) as [t|e] eqn:Ht; cbn [rbind] in Hrun;
    [|injection Hrun as <- <-; discriminate Hok].
  injection Hrun as <- <-.
  exists (store_path "metrics" clk uuid4), n, t.
  split; [reflexivity|]. split; [reflexivity|]. split; [reflexivity|].
  intros clk'. unfold analyze_data.
  rewrite (analyze_stored (the_analyzers clk') _ "summary" _ (VDict d) _ _ _ Hu).
  unfold dispatch, the_analyzers. cbn [String.eqb Ascii.eqb Bool.eqb an_summary].
  unfold _generate_summary, py_in, dict_has, py_getitem_key.
  rewrite Hd. cbn [rbind]. rewrite Hn. cbn [rbind]. rewrite Hss. cbn [rbind].
  rewrite Ht. cbn [rbind].
  destruct (1000 <? t); cbn [rbind respond snd]; eexists; (split; [reflexivity|]);
    split; reflexivity.
Qed.

Lemma get_metrics_agrees_with_summary_witness :
  let d := [("series",
             VList [VDict [("pointlist", VList [VList [VInt 1; VInt 10];
                                                VList [VInt 2; VNone]])];
                    VDict [("metric", VStr "cpu")]])] in
  let run := get_metrics "avg:cpu" 0 60 (Ok (VDict d)) demo_clock
               "1b9d6bcd-bbfd-4b2d-9b5d-ab8dfbbd4bed" (demo_world ∅) in
  exists filepath n t,
    dict_get (snd run) "filepath" = Some (str_val filepath)
    /\ dict_get (snd run) "series_count" = Some (RVal (VInt n))
    /\ dict_get (snd run) "data_points" = Some (RVal (VInt t))
    /\ forall clk', exists summary,
         snd (analyze_data filepath "summary" clk' (fst run))
         = [("analysis_type", str_val "summary");
            ("filepath", str_val filepath);
            ("result", RDict summary)]
         /\ dict_get summary "record_count" = Some (RVal (VInt n))
         /\ dict_get summary "total_data_points" = Some (RVal (VInt t)).
Proof.
  intros d run.
  apply (get_metrics_agrees_with_summary "avg:cpu" 0 60 d demo_clock
           "1b9d6bcd-bbfd-4b2d-9b5d-ab8dfbbd4bed" (demo_world ∅) (fst run) (snd run)).
  - reflexivity.
  - reflexivity.
  - apply surjective_pairing.
  - vm_compute. reflexivity.
Defined.

(** X13.  [get_metrics] stores before it counts.  With a response and a
    writable path the artifact is in the cache once the tool has answered,
    whatever the answer: a handle is always backed by its file, but when
    the counting raises (a response without series objects, say) the tool
    answers with the error alone and the artifact stays behind without a
    handle. *)
Theorem get_metrics_stores_before_counting query from_timestamp to_timestamp
    data clk uuid4 w :
  is_denied (store_path "metrics" clk uuid4) w = false ->
  let run := get_metrics query from_timestamp to_timestamp (Ok data) clk uuid4 w in
  load_data (store_path "metrics" clk uuid4) (fst run)
  = Ok (Json.canonical (Json.of_pyval data))
  /\ (forall e, metrics_counts data = Raise e ->
       snd run = error_result ("Failed to get metrics: " +:+ str_exn e))
  /\ (forall n t, metrics_counts data = Ok (n, t) ->
       dict_get (snd run) "filepath"
       = Some (str_val (store_path "metrics" clk uuid4))
       /\ dict_get (snd run) "error" = None).
Proof.
  intros Hden run. subst run.
  unfold get_metrics, try_except, tbind, tlift, tinfo, tret.
  rewrite store_data_writes by done.
  destruct (metrics_counts data) as [[n t]|e].
  - cbn [fst snd]. split; [|split].
    + unfold load_data, fs_read. cbn [ctx_info ctx_log set_files w_files].
      rewrite lookup_insert_eq. cbn [rbind f_content]. apply JsonFacts.loads_dumps.
    + intros e [=].
    + intros n' t' _. split; reflexivity.
  - cbn [fst snd]. split; [|split].
    + unfold load_data, fs_read. cbn [ctx_error ctx_log set_files w_files].
      rewrite lookup_insert_eq. cbn [rbind f_content]. apply JsonFacts.loads_dumps.
    + intros e' [= <-]. reflexivity.
    + intros n t [=].
Qed.

Lemma get_metrics_stores_before_counting_witness :
  let run := get_metrics "avg:cpu" 0 60 (Ok (VDict [("series", VNone)])) demo_clock
               "1b9d6bcd-bbfd-4b2d-9b5d-ab8dfbbd4bed" (demo_world ∅) in
  load_data "datadog_cache/metrics_90000_1b9d6bcd.json" (fst run)
  = Ok (VDict [("series", VNone)])
  /\ snd run = error_result "Failed to get metrics: TypeError".
Proof.
  intros run.
  destruct (get_metrics_stores_before_counting "avg:cpu" 0 60
              (VDict [("series", VNone)]) demo_clock
              "1b9d6bcd-bbfd-4b2d-9b5d-ab8dfbbd4bed" (demo_world ∅))
    as (Hload & Herr & _).
  - reflexivity.
  - split; [exact Hload|]. apply (Herr TypeError). reflexivity.
Defined.

(** ** The dictionary of states of [get_monitors] *)

Lemma counts_total_set states k n :
  counts_total (counts_set states k n)
  = counts_total states - counts_get states k 0 + n.
Proof.
  unfold counts_total, list_sum_Z.
  induction states as [|[k' n'] states IH]; cbn [counts_set counts_get].
  - cbn. lia.
  - destruct (py_key_eq k' k); cbn [map fold_right snd] in *; lia.
Qed.

Lemma py_key_eq_str k s : py_key_eq k (VStr s) = py_eq_str k s.
Proof. by destruct k as [|[]| | | |]. Qed.

Lemma py_key_eq_true_str k' k s :
  py_key_eq k' k = true -> py_eq_str k' s = py_eq_str k s.
Proof.
  destruct k' as [|[]|z|s'| |], k as [|[]|z'|s''| |]; cbn; try done.
  by intros ->%String.eqb_eq.
Qed.

Lemma py_key_eq_false_str k' k s :
  py_key_eq k' k = false -> py_eq_str k' s = true -> py_eq_str k s = false.
Proof.
  destruct k' as [|[]|z|s'| |], k as [|[]|z'|s''| |]; cbn; try done.
  intros Hne ->%String.eqb_eq. rewrite String.eqb_sym. exact Hne.
Qed.

Lemma counts_get_set_str states k n s :
  counts_get (counts_set states k n) (VStr s) 0
  = if py_eq_str k s then n else counts_get states (VStr s) 0.
Proof.
  induction states as [|[k' n'] states IH]; cbn [counts_set counts_get].
  - by rewrite py_key_eq_str.
  - destruct (py_key_eq k' k) eqn:Hk; cbn [counts_get]; rewrite py_key_eq_str.
    + rewrite (py_key_eq_true_str k' k s Hk). by destruct (py_eq_str k s).
    + destruct (py_eq_str k' s) eqn:Hs.
      * by rewrite (py_key_eq_false_str k' k s Hk Hs).
      * exact IH.
Qed.

Lemma alerting_count_cons m ms :
  alerting_count_of (m :: ms)
  = (if is_alerting m then 1 else 0) + alerting_count_of ms.
Proof.
  unfold alerting_count_of. destruct (is_alerting m) eqn:Hm.
  - rewrite filter_cons_True by done. cbn [length]. lia.
  - rewrite filter_cons_False by congruence. lia.
Qed.

Lemma count_states_ok data : forall states states',
  count_states states data = Ok states' ->
  Forall (fun m => is_dict m = true) data
  /\ counts_total states' = counts_total states + Z.of_nat (length data)
  /\ counts_get states' (VStr "Alert") 0
     = counts_get states (VStr "Alert") 0 + alerting_count_of data.
Proof.
  induction data as [|m data IH]; intros states states' H.
  - injection H as <-. split; [constructor|]. unfold alerting_count_of. cbn. lia.
  - cbn [count_states] in H. bind_inv H.
    destruct m as [| | | | |d]; try discriminate E. cbn [py_get] in E.
    destruct (hashable x) eqn:Hh; [|discriminate H].
    apply IH in H as (Hd & Htot & Hal).
    split; [by constructor|].
    rewrite counts_total_set in Htot. rewrite counts_get_set_str in Hal.
    rewrite alerting_count_cons. cbn [length is_alerting].
    split; [lia|]. rewrite Hal.
    destruct (dict_get d "overall_state") as [st|]; injection E as <-.
    + destruct (py_eq_str st "Alert") eqn:Hst; [|lia].
      destruct st; try discriminate Hst. cbn in Hst.
      apply String.eqb_eq in Hst as ->. lia.
    + cbn [py_eq_str String.eqb Ascii.eqb Bool.eqb]. lia.
Qed.

(** The run of [get_monitors] that answers without an error. *)
Lemma get_monitors_ok data clk uuid4 w w' r :
  get_monitors (Ok data) clk uuid4 w = (w', r) ->
  dict_get r "error" = None ->
  exists states,
    count_states [] data = Ok states
    /\ w' = ctx_info ("Retrieved " +:+ py_str_int (Z.of_nat (length data)) +:+ " monitors")
              (set_files
                 (<[store_path "monitors" clk uuid4 :=
                      {| f_mtime := now_ts clk;
                         f_content := Json.dumps (Json.of_pyval (VList data)) |}]>
                    (w_files w)) w)
    /\ r = [("filepath", TVal (VStr (store_path "monitors" clk uuid4)));
            ("summary",
             TVal (VStr ("Retrieved " +:+ py_str_int (Z.of_nat (length data))
                         +:+ " monitors")));
            ("total_monitors", TVal (VInt (Z.of_nat (length data))));
            ("monitor_states", TStates states);
            ("alerting_count", TVal (VInt (counts_get states (VStr "Alert") 0)))].
Proof.
  intros Hrun Hok.
  unfold get_monitors, try_except, tbind, tlift, tinfo, tret in Hrun.
  destruct (is_denied (store_path "monitors" clk uuid4) w) eqn:Hden.
  { rewrite store_data_denied in Hrun by done.
    injection Hrun as <- <-. discriminate Hok. }
  rewrite store_data_writes in Hrun by done.
  destruct (count_states [] data) as [states|e];
    [|injection Hrun as <- <-; discriminate Hok].
  injection Hrun as <- <-. by exists states.
Qed.

(** X14.  When [get_monitors] answers with a handle, the counts of
    [monitor_states] add up to [total_monitors], the number of monitors
    fetched, and [alerting_count] is the number of monitors whose
    "overall_state" is the string "Alert". *)
Theorem get_monitors_counts data clk uuid4 w w' r :
  get_monitors (Ok data) clk uuid4 w = (w', r) ->
  dict_get r "error" = None ->
  exists states,
    dict_get r "monitor_states" = Some (TStates states)
    /\ dict_get r "total_monitors" = Some (TVal (VInt (Z.of_nat (length data))))
    /\ counts_total states = Z.of_nat (length data)
    /\ dict_get r "alerting_count" = Some (TVal (VInt (alerting_count_of data)))
    /\ counts_get states (VStr "Alert") 0 = alerting_count_of data.
Proof.
  intros Hrun Hok.
  destruct (get_monitors_ok data clk uuid4 w w' r Hrun Hok) as (states & Hst & _ & ->).
  destruct (count_states_ok data [] states Hst) as (_ & Htot & Hal).
  exists states. cbn [dict_get String.eqb Ascii.eqb Bool.eqb].
  cbn in Htot, Hal. rewrite Hal.
  repeat split; try reflexivity. exact Htot.
Qed.

Lemma get_monitors_counts_witness :
  let data := [VDict [("overall_state", VStr "Alert")];
               VDict [("name", VStr "disk")];
               VDict [("overall_state", VNone)];
               VDict [("overall_state", VStr "Alert")]] in
  let run := get_monitors (Ok data) demo_clock
               "1b9d6bcd-bbfd-4b2d-9b5d-ab8dfbbd4bed" (demo_world ∅) in
  exists states,
    dict_get (snd run) "monitor_states" = Some (TStates states)
    /\ dict_get (snd run) "total_monitors" = Some (TVal (VInt 4))
    /\ counts_total states = 4
    /\ dict_get (snd run) "alerting_count" = Some (TVal (VInt 2))
    /\ counts_get states (VStr "Alert") 0 = 2.
Proof.
  intros data run.
  apply (get_monitors_counts data demo_clock
           "1b9d6bcd-bbfd-4b2d-9b5d-ab8dfbbd4bed" (demo_world ∅) (fst run) (snd run)).
  - apply surjective_pairing.
  - vm_compute. reflexivity.
Defined.

(** X15.  The counts of [get_monitors] are those of the Summary analysis
    of the stored artifact: when the first monitor has the key
    "overall_state", [analyze_data] on the handle with "summary" reports
    [record_count] equal to [total_monitors] and [alerting_monitors] equal
    to [alerting_count]. *)
Theorem get_monitors_agrees_with_summary d0 rest clk uuid4 w w' r :
  Json.unique_keys (VList (VDict d0 :: rest)) = true ->
  dict_has d0 "overall_state" = true ->
  get_monitors (Ok (VDict d0 :: rest)) clk uuid4 w = (w', r) ->
  dict_get r "error" = None ->
  exists filepath n a,
    dict_get r "filepath" = Some (TVal (VStr filepath))
    /\ dict_get r "total_monitors" = Some (TVal (VInt n))
    /\ dict_get r "alerting_count" = Some (TVal (VInt a))
    /\ forall clk', exists summary,
         snd (analyze_data filepath "summary" clk' w')
         = [("analysis_type", str_val "summary");
            ("filepath", str_val filepath);
            ("result", RDict summary)]
         /\ dict_get summary "data_type" = Some (str_val "monitors")
         /\ dict_get summary "record_count" = Some (RVal (VInt n))
         /\ dict_get summary "alerting_monitors" = Some (RVal (VInt a)).
Proof.
  intros Hu Hfirst Hrun Hok.
  destruct (get_monitors_ok _ clk uuid4 w w' r Hrun Hok) as (states & Hst & -> & ->).
  destruct (count_states_ok _ [] states Hst) as (Hd & _ & Hal).
  apply Forall_cons in Hd as [_ Hd]. cbn in Hal.
  eexists _, _, _. split; [reflexivity|]. split; [reflexivity|].
  split; [reflexivity|].
  intros clk'. unfold analyze_data.
  rewrite (analyze_stored (the_analyzers clk') _ "summary" _
             (VList (VDict d0 :: rest)) _ _ _ Hu).
  unfold dispatch, the_analyzers. cbn [String.eqb Ascii.eqb Bool.eqb an_summary].
  rewrite (summary_of_monitors d0 rest Hfirst Hd). cbn [rbind respond snd].
  eexists. split; [reflexivity|]. rewrite Hal.
  repeat split; reflexivity.
Qed.

Lemma get_monitors_agrees_with_summary_witness :
  let run := get_monitors
               (Ok [VDict [("overall_state", VStr "Alert")];
                    VDict [("name", VStr "disk")]])
               demo_clock "1b9d6bcd-bbfd-4b2d-9b5d-ab8dfbbd4bed" (demo_world ∅) in
  exists filepath n a,
    dict_get (snd run) "filepath" = Some (TVal (VStr filepath))
    /\ dict_get (snd run) "total_monitors" = Some (TVal (VInt n))
    /\ dict_get (snd run) "alerting_count" = Some (TVal (VInt a))
    /\ forall clk', exists summary,
         snd (analyze_data filepath "summary" clk' (fst run))
         = [("analysis_type", str_val "summary");
            ("filepath", str_val filepath);
            ("result", RDict summary)]
         /\ dict_get summary "data_type" = Some (str_val "monitors")
         /\ dict_get summary "record_count" = Some (RVal (VInt n))
         /\ dict_get summary "alerting_monitors" = Some (RVal (VInt a)).
Proof.
  intros run.
  apply (get_monitors_agrees_with_summary [("overall_state", VStr "Alert")]
           [VDict [("name", VStr "disk")]] demo_clock
           "1b9d6bcd-bbfd-4b2d-9b5d-ab8dfbbd4bed" (demo_world ∅) (fst run) (snd run)).
  - reflexivity.
  - reflexivity.
  - apply surjective_pairing.
  - vm_compute. reflexivity.
Defined.

(** ** [get_events] and [get_infrastructure] *)

(** X16.  The count of [get_events] is that of the Summary analysis of the
    stored artifact: for a response object without the key "series",
    [analyze_data] on the handle with "summary" reports [record_count]
    equal to [event_count], as events when the key "events" is present and
    as unknown, with the count 0, when it is absent. *)
Theorem get_events_agrees_with_summary start end_ priority sources list_events
    d clk uuid4 w w' r :
  Json.unique_keys (VDict d) = true ->
  dict_has d "series" = false ->
  list_events (events_kwargs start end_ priority sources) = Ok (VDict d) ->
  get_events start end_ priority sources list_events clk uuid4 w = (w', r) ->
  dict_get r "error" = None ->
  exists filepath n,
    dict_get r "filepath" = Some (str_val filepath)
    /\ dict_get r "event_count" = Some (RVal (VInt n))
    /\ forall clk', exists summary,
         snd (analyze_data filepath "summary" clk' w')
         = [("analysis_type", str_val "summary");
            ("filepath", str_val filepath);
            ("result", RDict summary)]
         /\ dict_get summary "record_count" = Some (RVal (VInt n))
         /\ dict_get summary "data_type"
            = Some (str_val (if dict_has d "events" then "events" else "unknown")).
Proof.
  intros Hu Hs Hresp Hrun Hok.
  unfold get_events, try_except, tbind, tlift, tinfo, tret in Hrun.
  rewrite Hresp in Hrun.
  destruct (is_denied (store_path "events" clk uuid4) w) eqn:Hden.
  { rewrite store_data_denied in Hrun by done.
    injection Hrun as <- <-. discriminate Hok. }
  rewrite store_data_writes in Hrun by done.
  unfold py_get in Hrun.
  assert (Hsummary : forall events n,
            dict_get d "events" = Some events -> py_len events = Ok n ->
            _generate_summary (VDict d)
            = Ok [("data_type", str_val "events");
                  ("record_count", RVal (VInt n));
                  ("key_insights", RVal (VList []))]).
  { intros events n Hev Hn.
    unfold _generate_summary, py_in, py_getitem_key. rewrite Hs.
    cbn [rbind is_list andb]. unfold dict_has. rewrite Hev. cbn [rbind].
    rewrite Hn. reflexivity. }
  assert (Hunknown : dict_get d "events" = None ->
                     _generate_summary (VDict d) = Ok summary_init).
  { intros Hev. unfold _generate_summary, py_in. rewrite Hs.
    cbn [rbind is_list andb]. unfold dict_has. by rewrite Hev. }
  unfold dict_has at 1.
  destruct (dict_get d "events") as [events|] eqn:Hev.
  - destruct (py_len events) as [n|e] eqn:Hn;
      [|injection Hrun as <- <-; discriminate Hok].
    injection Hrun as <- <-.
    eexists _, n. split; [reflexivity|]. split; [reflexivity|].
    intros clk'. unfold analyze_data.
    rewrite (analyze_stored (the_analyzers clk') _ "summary" _ (VDict d) _ _ _ Hu).
    unfold dispatch, the_analyzers. cbn [String.eqb Ascii.eqb Bool.eqb an_summary].
    rewrite (Hsummary events n eq_refl Hn). cbn [rbind respond snd].
    eexists. split; [reflexivity|]. split; reflexivity.
  - cbn [py_len] in Hrun. injection Hrun as <- <-.
    eexists _, 0. split; [reflexivity|]. split; [reflexivity|].
    intros clk'. unfold analyze_data.
    rewrite (analyze_stored (the_analyzers clk') _ "summary" _ (VDict d) _ _ _ Hu).
    unfold dispatch, the_analyzers. cbn [String.eqb Ascii.eqb Bool.eqb an_summary].
    rewrite (Hunknown eq_refl). cbn [rbind respond snd].
    eexists. split; [reflexivity|]. split; reflexivity.
Qed.

Lemma get_events_agrees_with_summary_witness :
  let d := [("events", VList [VDict [("id", VInt 1)]; VDict [("id", VInt 2)]])] in
  let run := get_events 0 60 (Some "") None (fun _ => Ok (VDict d)) demo_clock
               "1b9d6bcd-bbfd-4b2d-9b5d-ab8dfbbd4bed" (demo_world ∅) in
  exists filepath n,
    dict_get (snd run) "filepath" = Some (str_val filepath)
    /\ dict_get (snd run) "event_count" = Some (RVal (VInt n))
    /\ forall clk', exists summary,
         snd (analyze_data filepath "summary" clk' (fst run))
         = [("analysis_type", str_val "summary");
            ("filepath", str_val filepath);
            ("result", RDict summary)]
         /\ dict_get summary "record_count" = Some (RVal (VInt n))
         /\ dict_get summary "data_type" = Some (str_val "events").
Proof.
  intros d run.
  apply (get_events_agrees_with_summary 0 60 (Some "") None (fun _ => Ok (VDict d))
           d demo_clock "1b9d6bcd-bbfd-4b2d-9b5d-ab8dfbbd4bed" (demo_world ∅)
           (fst run) (snd run)).
  - reflexivity.
  - reflexivity.
  - reflexivity.
  - apply surjective_pairing.
  - vm_compute. reflexivity.
Defined.

Lemma count_up_ok hosts : forall acc n,
  count_up acc hosts = Ok n ->
  n = acc + Z.of_nat (length (filter (fun h => is_up h = true) hosts)).
Proof.
  induction hosts as [|h hosts IH]; intros acc n H.
  - injection H as <-. cbn. lia.
  - cbn [count_up] in H. bind_inv H.
    destruct h as [| | | | |d]; try discriminate E. cbn [py_get] in E.
    apply IH in H as ->.
    assert (Hup : is_up (VDict d) = py_truthy x).
    { cbn [is_up]. by destruct (dict_get d "up"); injection E as <-. }
    destruct (py_truthy x).
    + rewrite filter_cons_True by done. cbn [length]. lia.
    + rewrite filter_cons_False by congruence. lia.
Qed.

(** X17.  When [get_infrastructure] answers with a handle, [active_hosts]
    is the number of hosts whose "up" is true, it lies between 0 and
    [total_hosts], and [inactive_hosts] is the rest.  The artifact it
    stores is no metrics, monitors or events artifact: the Summary analysis
    of the handle is the unknown summary with [record_count] 0, however
    many hosts there are. *)
Theorem get_infrastructure_counts host_list clk uuid4 w w' r :
  get_infrastructure (Ok host_list) clk uuid4 w = (w', r) ->
  dict_get r "error" = None ->
  let hosts := default [] host_list in
  let total := Z.of_nat (length hosts) in
  let active := Z.of_nat (length (filter (fun h => is_up h = true) hosts)) in
  exists filepath,
    dict_get r "filepath" = Some (str_val filepath)
    /\ dict_get r "total_hosts" = Some (RVal (VInt total))
    /\ dict_get r "active_hosts" = Some (RVal (VInt active))
    /\ dict_get r "inactive_hosts" = Some (RVal (VInt (total - active)))
    /\ 0 <= active <= total
    /\ forall clk',
         snd (analyze_data filepath "summary" clk' w')
         = [("analysis_type", str_val "summary");
            ("filepath", str_val filepath);
            ("result", RDict summary_init)].
Proof.
  intros Hrun Hok hosts total active.
  unfold get_infrastructure, try_except, tbind, tlift, tinfo, tret in Hrun.
  destruct (is_denied (store_path "infrastructure" clk uuid4) w) eqn:Hden.
  { rewrite store_data_denied in Hrun by done.
    injection Hrun as <- <-. discriminate Hok. }
  rewrite store_data_writes in Hrun by done.
  change (match host_list with Some hosts => hosts | None => [] end)
    with hosts in Hrun.
  destruct (count_up 0 hosts) as [n|e] eqn:Hn;
    [|injection Hrun as <- <-; discriminate Hok].
  apply count_up_ok in Hn. rewrite Z.add_0_l in Hn. fold active in Hn. subst n.
  injection Hrun as <- <-.
  eexists. split; [reflexivity|]. split; [reflexivity|]. split; [reflexivity|].
  split; [reflexivity|]. split.
  { subst active total. pose proof (length_filter (fun h => is_up h = true) hosts). lia. }
  intros clk'. unfold analyze_data, analyze_data_with, path_exists.
  cbn [ctx_info ctx_log set_files w_files]. rewrite lookup_insert_eq. cbn [negb].
  unfold load_data, fs_read. cbn [ctx_info ctx_log set_files w_files].
  rewrite lookup_insert_eq.
  cbn [rbind f_content]. rewrite JsonFacts.loads_dumps. reflexivity.
Qed.

Lemma get_infrastructure_counts_witness :
  let run := get_infrastructure
               (Ok (Some [VDict [("up", VBool true)]; VDict [("name", VStr "db")];
                          VDict [("up", VBool false)]]))
               demo_clock "1b9d6bcd-bbfd-4b2d-9b5d-ab8dfbbd4bed" (demo_world ∅) in
  exists filepath,
    dict_get (snd run) "filepath" = Some (str_val filepath)
    /\ dict_get (snd run) "total_hosts" = Some (RVal (VInt 3))
    /\ dict_get (snd run) "active_hosts" = Some (RVal (VInt 1))
    /\ dict_get (snd run) "inactive_hosts" = Some (RVal (VInt (3 - 1)))
    /\ 0 <= 1 <= 3
    /\ forall clk',
         snd (analyze_data filepath "summary" clk' (fst run))
         = [("analysis_type", str_val "summary");
            ("filepath", str_val filepath);
            ("result", RDict summary_init)].
Proof.
  intros run.
  apply (get_infrastructure_counts
           (Some [VDict [("up", VBool true)]; VDict [("name", VStr "db")];
                  VDict [("up", VBool false)]])
           demo_clock "1b9d6bcd-bbfd-4b2d-9b5d-ab8dfbbd4bed" (demo_world ∅)
           (fst run) (snd run)).
  - apply surjective_pairing.
  - vm_compute. reflexivity.
Defined.

(** ** The monitor sent by [create_monitor] and [update_monitor] *)

Lemma dict_get_notin {A} (d : list (string * A)) k :
  k ∉ map fst d -> dict_get d k = None.
Proof.
  induction d as [|[k' v] d IH]; [done|]. cbn [map fst dict_get].
  intros Hk. apply not_elem_of_cons in Hk as [Hne Hk].
  destruct (String.eqb_spec k' k); [congruence|by apply IH].
Qed.

Lemma dict_get_update {A} (fields : list (string * A)) : forall d k,
  NoDup (map fst fields) ->
  dict_get (dict_update d fields) k
  = match dict_get fields k with
    | Some v => Some v
    | None => dict_get d k
    end.
Proof.
  unfold dict_update.
  induction fields as [|[k0 v0] fields IH]; intros d k Hnd; [done|].
  cbn [map fst] in Hnd. apply NoDup_cons in Hnd as [Hk0 Hnd].
  cbn [fold_left fst snd dict_get]. rewrite IH by done.
  destruct (String.eqb_spec k0 k) as [->|Hne].
  - by rewrite dict_get_notin, dict_get_set_eq.
  - by rewrite dict_get_set_ne.
Qed.

Lemma dict_get_with_options cfg options k :
  options_wf options ->
  dict_get (with_options cfg options) k
  = match option_of options k with
    | Some v => Some v
    | None => dict_get cfg k
    end.
Proof.
  destruct options as [o|]; [|done]. cbn [options_wf option_of with_options].
  intros Hnd. destruct o as [|kv o]; [done|].
  cbn [py_truthy]. by apply dict_get_update.
Qed.

(** X18.  In the monitor [create_monitor] sends, a key of [options] wins
    over the named argument of the same key, also for "name", "type",
    "query" and "message"; the other keys hold the named arguments. *)
Theorem monitor_config_lookup name monitor_type query message options k :
  options_wf options ->
  dict_get (monitor_config name monitor_type query message options) k
  = match option_of options k with
    | Some v => Some v
    | None =>
        dict_get [("name", VStr name); ("type", VStr monitor_type);
                  ("query", VStr query); ("message", VStr message)] k
    end.
Proof. intros Hwf. unfold monitor_config. by apply dict_get_with_options. Qed.

Lemma monitor_config_lookup_witness :
  dict_get (monitor_config "cpu" "metric alert" "avg:cpu > 1" "call me"
              (Some [("name", VStr "other"); ("priority", VInt 3)])) "name"
  = Some (VStr "other").
Proof.
  apply (monitor_config_lookup "cpu" "metric alert" "avg:cpu > 1" "call me"
           (Some [("name", VStr "other"); ("priority", VInt 3)]) "name").
  apply (bool_decide_unpack _). vm_compute. reflexivity.
Defined.

(** X19.  In the monitor [update_monitor] sends, a key of [options] wins;
    otherwise "name", "query" and "message" hold the argument when it is
    a non-empty string, and every key without such an argument keeps the
    value of the existing monitor: a field cannot be emptied by passing
    the empty string. *)
Theorem update_data_lookup existing name query message options k :
  options_wf options ->
  dict_get (update_data existing name query message options) k
  = match option_of options k with
    | Some v => Some v
    | None =>
        if py_truthy (opt_str (field_arg name query message k))
        then Some (opt_str (field_arg name query message k))
        else dict_get existing k
    end.
Proof.
  intros Hwf. unfold update_data. rewrite dict_get_with_options by done.
  destruct (option_of options k); [done|]. unfold field_arg.
  destruct (String.eqb_spec k "name") as [->|Hn].
  { destruct (py_truthy (opt_str message)), (py_truthy (opt_str query));
      rewrite ?dict_get_set_ne by done;
      destruct (py_truthy (opt_str name)); by rewrite ?dict_get_set_eq. }
  destruct (String.eqb_spec k "query") as [->|Hq].
  { destruct (py_truthy (opt_str message));
      rewrite ?dict_get_set_ne by done;
      destruct (py_truthy (opt_str query)); rewrite ?dict_get_set_eq; try done;
      destruct (py_truthy (opt_str name)); by rewrite ?dict_get_set_ne. }
  destruct (String.eqb_spec k "message") as [->|Hm].
  { destruct (py_truthy (opt_str message)); rewrite ?dict_get_set_eq; try done;
      destruct (py_truthy (opt_str query)); rewrite ?dict_get_set_ne by done;
      destruct (py_truthy (opt_str name)); by rewrite ?dict_get_set_ne. }
  cbn [opt_str py_truthy].
  destruct (py_truthy (opt_str message)), (py_truthy (opt_str query)),
    (py_truthy (opt_str name)); by rewrite ?dict_get_set_ne.
Qed.

Lemma update_data_lookup_witness :
  dict_get (update_data [("name", VStr "cpu"); ("message", VStr "call me")]
              (Some "cpu high") None (Some "") None) "message"
  = Some (VStr "call me").
Proof.
  apply (update_data_lookup [("name", VStr "cpu"); ("message", VStr "call me")]
           (Some "cpu high") None (Some "") None "message").
  exact I.
Defined.

(** ** Configuration *)

(** X20.  [_load_config] raises [ValueError], and nothing else, exactly
    when one of the two keys is unset or empty; otherwise the
    configuration holds the two keys as the environment gives them, and as
    site the value of DATADOG_SITE when the variable is set, be it to the
    empty string, and "datadoghq.com" only when it is unset. *)
Theorem load_config_spec environ :
  (_load_config environ = Raise ValueError
   <-> (environ !! "DATADOG_API_KEY" = None \/ environ !! "DATADOG_API_KEY" = Some ""
        \/ environ !! "DATADOG_APP_KEY" = None \/ environ !! "DATADOG_APP_KEY" = Some ""))
  /\ (forall e, _load_config environ = Raise e -> e = ValueError)
  /\ (forall cfg, _load_config environ = Ok cfg ->
        environ !! "DATADOG_API_KEY" = Some (api_key cfg) /\ api_key cfg <> ""
        /\ environ !! "DATADOG_APP_KEY" = Some (app_key cfg) /\ app_key cfg <> ""
        /\ site cfg = default "datadoghq.com" (environ !! "DATADOG_SITE")).
Proof.
  unfold _load_config.
  destruct (environ !! "DATADOG_API_KEY") as [a|],
    (environ !! "DATADOG_APP_KEY") as [k|];
    try (split; [split; [intros _|done]|split; [by intros e [= <-]|done]]; tauto).
  destruct (String.eqb_spec a "") as [->|Ha]; cbn [orb].
  { split; [split; [tauto|done]|split; [by intros e [= <-]|done]]. }
  destruct (String.eqb_spec k "") as [->|Hk].
  { split; [split; [tauto|done]|split; [by intros e [= <-]|done]]. }
  split; [|split; [done|]].
  - split; [done|]. intros [|[|[|]]]; congruence.
  - intros cfg [= <-]. cbn. done.
Qed.

(** ** The rounded percentage *)











Lemma load_config_spec_witness :
  let environ : gmap string string :=
    <["DATADOG_API_KEY" := "k1"]>
      (<["DATADOG_APP_KEY" := "k2"]> (<["DATADOG_SITE" := ""]> ∅)) in
  _load_config environ = Ok {| api_key := "k1"; app_key := "k2"; site := "" |}
  /\ site {| api_key := "k1"; app_key := "k2"; site := "" |}
     = default "datadoghq.com" (environ !! "DATADOG_SITE").
Proof.
  intros environ.
  assert (Hrun : _load_config environ
                 = Ok {| api_key := "k1"; app_key := "k2"; site := "" |})
    by (vm_compute; reflexivity).
  split; [exact Hrun|].
  destruct (load_config_spec environ) as (_ & _ & H).
  destruct (H _ Hrun) as (_ & _ & _ & _ & Hsite). exact Hsite.
Defined.

(** * Analysis leaves the cache alone *)

Lemma analyze_data_with_files an filepath analysis_type w1 w2 :
  w_files w1 = w_files w2 ->
  snd (analyze_data_with an filepath analysis_type w1)
  = snd (analyze_data_with an filepath analysis_type w2).
Proof.
  intros Hf. unfold analyze_data_with, path_exists, load_data, fs_read.
  rewrite Hf. destruct (w_files w2 !! filepath) as [f|]; [|done].
  cbn [negb rbind].
  by destruct (let* data := Json.loads (f_content f) in dispatch an analysis_type data)
    as [[r|]|e].
Qed.

Lemma analyze_data_with_world an filepath analysis_type w :
  w_files (fst (analyze_data_with an filepath analysis_type w)) = w_files w
  /\ w_denied (fst (analyze_data_with an filepath analysis_type w)) = w_denied w.
Proof.
  unfold analyze_data_with. destruct (negb (path_exists filepath w)); [done|].
  by destruct (let* data := load_data filepath w in dispatch an analysis_type data)
    as [[r|]|e].
Qed.

Lemma cleanup_loop_same_files cutoff paths : forall n w1 w2,
  w_files w1 = w_files w2 ->
  w_denied w1 = w_denied w2 ->
  snd (cleanup_loop cutoff paths n w1) = snd (cleanup_loop cutoff paths n w2)
  /\ w_files (fst (cleanup_loop cutoff paths n w1))
     = w_files (fst (cleanup_loop cutoff paths n w2)).
Proof.
  induction paths as [|p paths IH]; intros n w1 w2 Hf Hd; [done|].
  cbn [cleanup_loop]. unfold fs_mtime, fs_unlink, is_denied. rewrite Hf, Hd.
  destruct (w_files w2 !! p) as [f|]; [|done].
  destruct (Qltb (f_mtime f) cutoff); [|by apply IH].
  destruct (bool_decide (p ∈ w_denied w2)); [done|].
  apply IH; cbn [set_files w_files w_denied]; congruence.
Qed.

Lemma cleanup_cache_same_files older_than_hours clk w1 w2 :
  w_files w1 = w_files w2 ->
  w_denied w1 = w_denied w2 ->
  snd (cleanup_cache older_than_hours clk w1)
  = snd (cleanup_cache older_than_hours clk w2)
  /\ w_files (fst (cleanup_cache older_than_hours clk w1))
     = w_files (fst (cleanup_cache older_than_hours clk w2)).
Proof.
  intros Hf Hd. unfold cleanup_cache.
  assert (Hg : glob_json w1 = glob_json w2) by (unfold glob_json; by rewrite Hf).
  rewrite Hg.
  destruct (cleanup_loop_same_files (cutoff_of clk older_than_hours)
              (glob_json w2) 0 w1 w2 Hf Hd) as [Hr Hw].
  destruct (cleanup_loop (cutoff_of clk older_than_hours) (glob_json w2) 0 w1)
    as [w1' [n1|e1]],
    (cleanup_loop (cutoff_of clk older_than_hours) (glob_json w2) 0 w2)
    as [w2' [n2|e2]]; cbn [fst snd] in *; try discriminate Hr;
    injection Hr as ->; by split.
Qed.

(** X22.  [analyze_data] only reads: whatever the handle, the mode and the
    outcome, it leaves every file and every permission as they were, so
    that the same call made again gives the same answer, and a
    [cleanup_cache] after it answers and evicts as it would have done
    before it. *)
Theorem analyze_data_only_reads filepath analysis_type clk w :
  let w' := fst (analyze_data filepath analysis_type clk w) in
  w_files w' = w_files w
  /\ w_denied w' = w_denied w
  /\ snd (analyze_data filepath analysis_type clk w')
     = snd (analyze_data filepath analysis_type clk w)
  /\ forall older_than_hours clk',
       snd (cleanup_cache older_than_hours clk' w')
       = snd (cleanup_cache older_than_hours clk' w)
       /\ w_files (fst (cleanup_cache older_than_hours clk' w'))
          = w_files (fst (cleanup_cache older_than_hours clk' w)).
Proof.
  intros w'. subst w'. unfold analyze_data.
  destruct (analyze_data_with_world (the_analyzers clk) filepath analysis_type w)
    as [Hf Hd].
  split; [exact Hf|]. split; [exact Hd|].
  split; [by apply analyze_data_with_files|].
  intros older_than_hours clk'. by apply cleanup_cache_same_files.
Qed.

(** * Storing what was loaded *)










